(* ===== verification/_CoqProject ===== *)
-Q . S2P
Prelude.v
Runs.v
PyString.v
Environ.v
DbConfig.v
ConnString.v
Quoting.v
Validate.v
Package.v
Bodies.v
Interleave.v
Progress.v
Install.v
Names.v
Typing.v
Caller.v
Script.v
Heap.v
Objects.v
