(* ===== verification/Runs.v ===== *)
(** * Runs of a machine

    A machine is a step function: from a state and an action it gives the
    next state and, for some actions, a result; it is undefined where the
    action cannot be taken.  This file defines the runs of a machine, as an
    inductive relation and as a function, and proves what the process models
    of [Package], [Objects], [Install], [Interleave] and [Caller] share: the
    two definitions agree, runs compose, a property that every step keeps
    holds along every run, and a machine whose every step is a run of
    another machine has its runs among those of the other.  It also
    defines the run that the first result of a given kind ends, which
    [Script] takes for a program that an exception ends. *)

From stdpp Require Import base tactics option list.
From S2P Require Import Prelude.

Section runs.
Context {S A R : Type} (step : S → A → option (S * option R)).
Implicit Types (s : S) (a : A) (acts : list A) (rs : list R).

(** The runs of the machine: the actions taken and the results they gave. *)
Inductive steps_of : S → list A → list R → S → Prop :=
| steps_nil s : steps_of s [] [] s
| steps_cons s a o s' acts rs s'' :
    step s a = Some (s', o) →
    steps_of s' acts rs s'' →
    steps_of s (a :: acts) (option_list o ++ rs) s''.

(** The executable version of [steps_of]. *)
Fixpoint run_of (s : S) (acts : list A) : option (S * list R) :=
  match acts with
  | [] => Some (s, [])
  | a :: acts =>
      '(s', o) ← step s a;
      '(s'', rs) ← run_of s' acts;
      Some (s'', option_list o ++ rs)
  end.

(** What another machine sees of a run, when [see s a] is what it sees of
    the action [a] taken in the state [s]. *)
Fixpoint seen_of {A' : Type} (see : S → A → list A') (s : S) (acts : list A) : list A' :=
  match acts with
  | [] => []
  | a :: acts =>
      see s a ++ match step s a with
                 | Some (s', _) => seen_of see s' acts
                 | None => []
                 end
  end.

(** A run that a result can end: the actions are taken in order up to the
    first whose result [stop] holds of; the actions after it are not taken
    and are given back. *)
Fixpoint run_until (stop : R → bool) (s : S) (acts : list A) :
    option (S * list R * list A) :=
  match acts with
  | [] => Some (s, [], [])
  | a :: acts =>
      '(s', o) ← step s a;
      if from_option stop false o then Some (s', option_list o, acts)
      else '(s'', rs, rest) ← run_until stop s' acts;
           Some (s'', option_list o ++ rs, rest)
  end.

Lemma steps_inv_cons s a acts rs s'' :
  steps_of s (a :: acts) rs s'' →
  ∃ s' o rs', step s a = Some (s', o) ∧ steps_of s' acts rs' s'' ∧
              rs = option_list o ++ rs'.
Proof. inversion 1; subst. eauto 10. Qed.

Lemma steps_inv_nil s rs s' : steps_of s [] rs s' → s' = s ∧ rs = [].
Proof. by inversion 1. Qed.

Lemma steps_one s a o s' : step s a = Some (s', o) → steps_of s [a] (option_list o) s'.
Proof.
  intros Ha. rewrite <-(app_nil_r (option_list o)). econstructor; [done|constructor].
Qed.

Lemma steps_app s acts1 rs1 s1 acts2 rs2 s2 :
  steps_of s acts1 rs1 s1 → steps_of s1 acts2 rs2 s2 →
  steps_of s (acts1 ++ acts2) (rs1 ++ rs2) s2.
Proof.
  induction 1 as [|s a o s' acts rs s'' Ha _ IH]; [done|]. intros Hacts2.
  rewrite <-app_comm_cons, <-(assoc_L app). econstructor; eauto.
Qed.

Lemma run_sound s acts rs s' : run_of s acts = Some (s', rs) → steps_of s acts rs s'.
Proof.
  revert s rs. induction acts as [|a acts IH]; intros s rs; simpl.
  - intros [= <- <-]. constructor.
  - destruct (step s a) as [[s1 o]|] eqn:Ha; simpl; [|done].
    destruct (run_of s1 acts) as [[s2 rs']|] eqn:Hacts; simpl; [|done].
    intros [= <- <-]. econstructor; eauto.
Qed.

Lemma run_complete s acts rs s' : steps_of s acts rs s' → run_of s acts = Some (s', rs).
Proof.
  induction 1 as [|s a o s1 acts rs s2 Ha _ IH]; simpl; [done|].
  by rewrite Ha; simpl; rewrite IH.
Qed.

(** [run_of] computes the runs of the machine: it returns the final state
    and the results exactly for the runs that [steps_of] has. *)
Lemma run_steps s acts rs s' : run_of s acts = Some (s', rs) ↔ steps_of s acts rs s'.
Proof. split; [apply run_sound|apply run_complete]. Qed.

(** A property of states that every step keeps holds at the end of every
    run that starts where it holds. *)
Lemma steps_invariant (I : S → Prop) s acts rs s' :
  (∀ s a s' o, I s → step s a = Some (s', o) → I s') →
  I s → steps_of s acts rs s' → I s'.
Proof. intros Hstep Hs Hsteps. induction Hsteps; eauto. Qed.

(** ** Runs that a result ends *)

(** The actions taken are a prefix of the program, and they are a run. *)
Lemma run_until_prefix stop s acts s' rs rest :
  run_until stop s acts = Some (s', rs, rest) →
  ∃ taken, acts = taken ++ rest ∧ steps_of s taken rs s'.
Proof.
  revert s rs. induction acts as [|a acts IH]; intros s rs; simpl.
  { intros [= <- <- <-]. exists []. split; [done|constructor]. }
  destruct (step s a) as [[s1 o]|] eqn:Ha; simpl; [|done].
  destruct (from_option stop false o).
  { intros [= <- <- <-]. exists [a]. split; [done|by apply steps_one]. }
  destruct (run_until stop s1 acts) as [[[s2 rs'] rest']|] eqn:Hacts; simpl; [|done].
  intros [= <- <- <-]. destruct (IH _ _ Hacts) as (taken & -> & Htaken).
  exists (a :: taken). split; [done|]. econstructor; eauto.
Qed.

(** No result but the last ends the run, and the last does when actions
    are left. *)
Lemma run_until_results stop s acts s' rs rest :
  run_until stop s acts = Some (s', rs, rest) →
  Forall (λ r, stop r = false) rs ∧ rest = [] ∨
  ∃ rs0 r, rs = rs0 ++ [r] ∧ Forall (λ r, stop r = false) rs0 ∧ stop r = true.
Proof.
  revert s rs. induction acts as [|a acts IH]; intros s rs; simpl.
  { intros [= <- <- <-]. by left. }
  destruct (step s a) as [[s1 o]|] eqn:Ha; simpl; [|done].
  destruct (from_option stop false o) eqn:Ho.
  { intros [= <- <- <-]. destruct o as [r|]; [|done]. right. by exists [], r. }
  destruct (run_until stop s1 acts) as [[[s2 rs'] rest']|] eqn:Hacts; simpl; [|done].
  intros [= <- <- <-].
  assert (Forall (λ r, stop r = false) (option_list o)) as Hfirst.
  { destruct o; simpl in *; auto. }
  destruct (IH _ _ Hacts) as [[Hrs ->]|(rs0 & r & -> & Hrs0 & Hr)].
  - left. split; [by apply Forall_app|done].
  - right. exists (option_list o ++ rs0), r. rewrite (assoc_L app).
    split_and!; [done|by apply Forall_app|done].
Qed.

(** A run that no result ends is a run of the whole program. *)
Lemma run_until_complete stop s acts s' rs :
  steps_of s acts rs s' → Forall (λ r, stop r = false) rs →
  run_until stop s acts = Some (s', rs, []).
Proof.
  induction 1 as [|s a o s1 acts rs s2 Ha _ IH]; simpl; [done|].
  intros [Ho Hrs]%Forall_app. rewrite Ha. simpl.
  replace (from_option stop false o) with false.
  - by rewrite (IH Hrs).
  - destruct o as [r|]; [|done]. by inversion Ho.
Qed.

End runs.

(** ** Simulation

    A machine simulates another when each of its steps, from a state where
    an invariant holds, is a run of the other machine between the
    abstractions of the two states, with the results that the abstraction
    keeps.  Then so is each of its runs. *)

Section simulate.
Context {S1 A1 R1 S2 A2 R2 : Type}.
Context (step1 : S1 → A1 → option (S1 * option R1)).
Context (step2 : S2 → A2 → option (S2 * option R2)).
Context (I : S1 → Prop) (abs : S1 → S2) (see : S1 → A1 → list A2) (keep : R1 → option R2).
Context (Hinv : ∀ s a s' o, I s → step1 s a = Some (s', o) → I s').
Context (Hsim : ∀ s a s' o, I s → step1 s a = Some (s', o) →
  steps_of step2 (abs s) (see s a) (omap keep (option_list o)) (abs s')).

Lemma steps_simulate s acts rs s' :
  I s → steps_of step1 s acts rs s' →
  steps_of step2 (abs s) (seen_of step1 see s acts) (omap keep rs) (abs s').
Proof.
  intros Hs Hsteps. induction Hsteps as [|s a o s1 acts rs s2 Ha _ IH]; simpl.
  { constructor. }
  rewrite Ha, omap_app. eapply steps_app; eauto.
Qed.

End simulate.

