(* ===== verification/PyString.v ===== *)
(** * Python [str] values: truthiness, concatenation, characters

    The operations on strings that [config/db_config.py] uses (the truth
    value of a [str] and the concatenation an f-string performs), the two
    readers used to state what a formatted string determines ([strip_prefix],
    [split_at]), and the lemmas on them that the component files share.

    A Python [str] is modelled as a [string], a sequence of 8-bit characters:
    the UTF-8 encoding of the text.  Emptiness and concatenation commute with
    that encoding; [String.length] counts bytes, not code points. *)

From stdpp Require Import base tactics strings list.
From S2P Require Import Prelude.

(** ** Definitions *)

(** [bool(s)] of a Python [str]: the empty string is falsy, every other string
    is truthy.  The source tests [not config['password']]. *)
Definition truthy (s : string) : bool :=
  match s with
  | EmptyString => false
  | String _ _ => true
  end.

(** The characters of a string, in order. *)
Fixpoint str_chars (s : string) : list Ascii.ascii :=
  match s with
  | EmptyString => []
  | String a s' => a :: str_chars s'
  end.

(** [strip_prefix p s] is [Some r] when [s] is [p] followed by [r]. *)
Fixpoint strip_prefix (p s : string) : option string :=
  match p, s with
  | EmptyString, _ => Some s
  | String a p', String b s' => if decide (a = b) then strip_prefix p' s' else None
  | String _ _, EmptyString => None
  end.

(** [split_at c s] cuts [s] at the first occurrence of the character [c]:
    what is before it and what is after it. *)
Fixpoint split_at (c : Ascii.ascii) (s : string) : option (string * string) :=
  match s with
  | EmptyString => None
  | String a s' =>
      if decide (a = c) then Some (EmptyString, s')
      else prod_map (String a) id <$> split_at c s'
  end.

(** [contains s sub]: Python's [sub in s]. *)
Definition contains (s sub : string) : Prop :=
  ∃ pre post, s = pre +:+ sub +:+ post.

(** The executable version of [contains]. *)
Fixpoint containsb (s sub : string) : bool :=
  bool_decide (is_Some (strip_prefix sub s)) ||
  match s with
  | EmptyString => false
  | String _ s' => containsb s' sub
  end.

(** ** Concatenation *)

Lemma app_nil_l s : "" +:+ s = s.
Proof. done. Qed.

Lemma app_cons a s1 s2 : String a s1 +:+ s2 = String a (s1 +:+ s2).
Proof. done. Qed.

Lemma app_nil_r s : s +:+ "" = s.
Proof. induction s as [|a s IH]; [done|]. by rewrite app_cons, IH. Qed.

#[export] Instance str_app_assoc : Assoc (=) String.app.
Proof.
  intros s1 s2 s3. induction s1 as [|a s1 IH]; [done|].
  by rewrite !app_cons, IH.
Qed.

Lemma str_chars_app s1 s2 : str_chars (s1 +:+ s2) = str_chars s1 ++ str_chars s2.
Proof. induction s1 as [|a s1 IH]; [done|]. rewrite app_cons. simpl. by f_equal. Qed.

Lemma str_chars_length s : length (str_chars s) = String.length s.
Proof. induction s; simpl; by f_equal. Qed.

Lemma length_app s1 s2 :
  String.length (s1 +:+ s2) = String.length s1 + String.length s2.
Proof. by rewrite <-!str_chars_length, str_chars_app, List.length_app. Qed.

(** ** Truthiness *)

Lemma truthy_false s : truthy s = false ↔ s = "".
Proof. by destruct s. Qed.

Lemma truthy_true s : truthy s = true ↔ s ≠ "".
Proof. by destruct s. Qed.

Lemma truthy_app s1 s2 : truthy (s1 +:+ s2) = truthy s1 || truthy s2.
Proof. by destruct s1. Qed.

(** ** Prefixes *)

Lemma strip_prefix_app p s : strip_prefix p (p +:+ s) = Some s.
Proof.
  induction p as [|a p IH]; [done|].
  rewrite app_cons. simpl. by rewrite decide_True.
Qed.

Lemma strip_prefix_Some p s r : strip_prefix p s = Some r ↔ s = p +:+ r.
Proof.
  split; [|intros ->; apply strip_prefix_app].
  revert s. induction p as [|a p IH]; intros [|b s]; simpl; try naive_solver.
  case_decide; [|done]. intros ->%IH. by subst.
Qed.

(** ** Splitting at a character *)

Lemma split_at_app c s1 s2 :
  c ∉ str_chars s1 → split_at c (s1 +:+ String c s2) = Some (s1, s2).
Proof.
  induction s1 as [|a s1 IH]; intros Hc.
  - simpl. by rewrite decide_True.
  - apply not_elem_of_cons in Hc as [Hne Hc].
    rewrite app_cons. simpl. rewrite decide_False, IH by done. done.
Qed.

Lemma split_at_Some c s l r :
  split_at c s = Some (l, r) → s = l +:+ String c r ∧ (c ∉ str_chars l).
Proof.
  revert l. induction s as [|a s IH]; intros l; simpl; [done|].
  case_decide as Hac.
  - intros [= <- <-]. subst. split; [done|]. apply not_elem_of_nil.
  - destruct (split_at c s) as [[l' r']|]; simpl; [|done].
    intros [= <- <-]. destruct (IH l' eq_refl) as [-> Hl'].
    split; [done|]. simpl. apply not_elem_of_cons. naive_solver.
Qed.

Lemma split_at_None c s : split_at c s = None ↔ c ∉ str_chars s.
Proof.
  induction s as [|a s IH]; simpl.
  - split; [intros _; apply not_elem_of_nil|done].
  - rewrite not_elem_of_cons, <-IH. case_decide; subst.
    + naive_solver.
    + destruct (split_at c s) as [[??]|]; naive_solver.
Qed.

(** ** Substrings *)

Lemma contains_refl s : contains s s.
Proof. exists "", "". by rewrite app_nil_r. Qed.

Lemma contains_app_l s t sub : contains s sub → contains (s +:+ t) sub.
Proof.
  intros (pre & post & ->). exists pre, (post +:+ t).
  by rewrite <-!(assoc_L String.app).
Qed.

Lemma contains_app_r s t sub : contains t sub → contains (s +:+ t) sub.
Proof.
  intros (pre & post & ->). exists (s +:+ pre), post.
  by rewrite <-!(assoc_L String.app).
Qed.

Lemma contains_length s sub : contains s sub → String.length sub ≤ String.length s.
Proof. intros (pre & post & ->). rewrite !length_app. lia. Qed.

Lemma containsb_spec s sub : containsb s sub = true ↔ contains s sub.
Proof.
  induction s as [|a s IH]; simpl; rewrite orb_true_iff, bool_decide_eq_true.
  - split.
    + intros [[r Hr%strip_prefix_Some]|?]; [|done]. by exists "", r.
    + intros (pre & post & H). left. exists post. apply strip_prefix_Some.
      destruct pre; [done|]. by rewrite app_cons in H.
  - rewrite IH. split.
    + intros [[r Hr%strip_prefix_Some]|(pre & post & ->)].
      * by exists "", r.
      * by exists (String a pre), post.
    + intros ([|b pre] & post & H).
      * left. exists post. by apply strip_prefix_Some.
      * right. rewrite app_cons in H. injection H as -> ->. by exists pre, post.
Qed.

#[export] Instance contains_dec s sub : Decision (contains s sub).
Proof.
  refine (cast_if (decide (containsb s sub = true))); by rewrite <-containsb_spec.
Defined.

#[export] Hint Rewrite app_nil_l app_cons app_nil_r length_app strip_prefix_app
  truthy_app : py.
#[export] Hint Resolve contains_refl contains_app_l contains_app_r : py.

(** ** A separator between two parts *)

Lemma split_at_sep c s1 s2 :
  c ∉ str_chars s1 → split_at c (s1 +:+ String c "" +:+ s2) = Some (s1, s2).
Proof. apply split_at_app. Qed.

Lemma split_at_sep_inv c s1 s2 r :
  split_at c (s1 +:+ String c "" +:+ s2) = Some (s1, r) →
  (c ∉ str_chars s1) ∧ r = s2.
Proof.
  intros [Heq Hc]%split_at_Some. split; [done|].
  apply (inj (String.app s1)) in Heq. by injection Heq.
Qed.
