(* ===== verification/Environ.v ===== *)
(** * The process environment and the environment-file loader

    [os.environ] as a finite map from variable names to values, [os.getenv]
    with a default, Python's dict literal and subscript, and the interface
    [EnvLoader] of the collaborator that [load_dotenv()] names: what the
    configuration module relies on when it calls it at import time.  The
    loader of python-dotenv is given as an instance of that interface. *)

From stdpp Require Import base tactics option strings list gmap fin_maps.
From S2P Require Import Prelude PyString.

(** ** Definitions *)

(** [os.environ]. *)
Abbreviation environ := (gmap string string).

(** [os.getenv(key, default)]: the value of the variable, or [default] when
    the variable is not set.  A variable set to the empty string is set. *)
Definition getenv (env : environ) (key default : string) : string :=
  match env !! key with
  | Some v => v
  | None => default
  end.

(** A dict literal [{k1: v1, ..., kn: vn}]: the items are inserted from left
    to right, so a later item replaces an earlier one with the same key. *)
Definition dict_literal (items : list (string * string)) : gmap string string :=
  foldl (λ d kv, <[kv.1 := kv.2]> d) ∅ items.

(** [d[k]]: the value under [k], [KeyError] when [d] has no such key. *)
Definition subscript (d : gmap string string) (k : string) : result string :=
  match d !! k with
  | Some v => Return v
  | None => Raise (KeyError k)
  end.

(** What the configuration module assumes of [load_dotenv()]: it maps the
    environment to an environment, and a variable that is already set keeps
    its value (python-dotenv's default, [override=False]). *)
Class EnvLoader := {
  load_dotenv : environ → environ;
  load_dotenv_keeps env k v :
    env !! k = Some v → load_dotenv env !! k = Some v;
}.

(** The bindings of an environment file as a dict: read in file order, a
    later binding of a name replaces an earlier one. *)
Definition dotenv_values (bindings : list (string * string)) : environ :=
  dict_literal bindings.

(** python-dotenv's [load_dotenv()] on a file already read ([None]: no file
    was found, which is not an error): every binding whose name is not yet in
    the environment is added to it. *)
Definition dotenv_load (file : option (list (string * string))) (env : environ) : environ :=
  match file with
  | None => env
  | Some bindings => env ∪ dotenv_values bindings
  end.

(** python-dotenv's loader meets the interface. *)
Definition dotenv_loader (file : option (list (string * string))) : EnvLoader.
Proof.
  refine {| load_dotenv := dotenv_load file |}.
  intros env k v Hk. destruct file; simpl; [|done]. by apply lookup_union_Some_l.
Defined.

(** ** [getenv] *)

Lemma getenv_Some env key default v : env !! key = Some v → getenv env key default = v.
Proof. unfold getenv. by intros ->. Qed.

Lemma getenv_None env key default : env !! key = None → getenv env key default = default.
Proof. unfold getenv. by intros ->. Qed.

Lemma getenv_insert env key default v : getenv (<[key := v]> env) key default = v.
Proof. apply getenv_Some, lookup_insert_eq. Qed.

Lemma getenv_insert_ne env key key' default v :
  key ≠ key' → getenv (<[key := v]> env) key' default = getenv env key' default.
Proof. intros. unfold getenv. by rewrite lookup_insert_ne. Qed.

Lemma getenv_delete env key default : getenv (delete key env) key default = default.
Proof. apply getenv_None, lookup_delete_eq. Qed.

Lemma getenv_ext env1 env2 key default :
  env1 !! key = env2 !! key → getenv env1 key default = getenv env2 key default.
Proof. unfold getenv. by intros ->. Qed.

Lemma getenv_empty env key :
  getenv env key "" = "" ↔ env !! key = None ∨ env !! key = Some "".
Proof. unfold getenv. destruct (env !! key) as [[|??]|]; naive_solver. Qed.

Lemma getenv_empty_default env key default :
  default ≠ "" → getenv env key default = "" ↔ env !! key = Some "".
Proof. unfold getenv. destruct (env !! key) as [[|??]|]; naive_solver. Qed.

(** ** Dict literals and subscripts *)

Lemma dict_literal_snoc items k v :
  dict_literal (items ++ [(k, v)]) = <[k := v]> (dict_literal items).
Proof. unfold dict_literal. by rewrite foldl_app. Qed.

Lemma subscript_Some d k v : d !! k = Some v → subscript d k = Return v.
Proof. unfold subscript. by intros ->. Qed.

Lemma subscript_None d k : d !! k = None → subscript d k = Raise (KeyError k).
Proof. unfold subscript. by intros ->. Qed.

Lemma subscript_Return d k v : subscript d k = Return v ↔ d !! k = Some v.
Proof. unfold subscript. destruct (d !! k); naive_solver. Qed.

(** ** The loader of python-dotenv *)

Lemma dotenv_load_keeps file env k v :
  env !! k = Some v → dotenv_load file env !! k = Some v.
Proof. destruct file; simpl; [|done]. apply lookup_union_Some_l. Qed.

Lemma dotenv_load_adds bindings env k :
  env !! k = None →
  dotenv_load (Some bindings) env !! k = dotenv_values bindings !! k.
Proof. intros. simpl. by rewrite lookup_union_r. Qed.

Lemma dotenv_load_idemp file env :
  dotenv_load file (dotenv_load file env) = dotenv_load file env.
Proof.
  destruct file; simpl; [|done].
  by rewrite <-(assoc_L (∪)), (idemp_L (∪)).
Qed.

#[export] Hint Rewrite getenv_insert getenv_delete : py.
#[export] Hint Rewrite getenv_insert_ne using done : py.
#[export] Hint Resolve getenv_Some getenv_None subscript_Some subscript_None : py.
