(* ===== verification/DbConfig.v ===== *)
(** * [get_db_config]: the settings read from the environment

    The dict that [get_db_config()] of [config/db_config.py] returns, as a
    function of the environment; the table of (field, variable, default)
    triples that the function body spells out entry by entry; the settings
    record of the specification with the abstraction from dicts to records;
    and the equivalence of environments that agree on the five variables the
    function reads. *)

From stdpp Require Import base tactics option strings list gmap fin_maps.
From S2P Require Import Prelude PyString Environ.

(** ** Definitions *)

(** [get_db_config()]: a fresh dict of five entries, each the value of one
    environment variable or its default. *)
Definition get_db_config (env : environ) : gmap string string :=
  dict_literal [
    ("username", getenv env "DB_USERNAME" "postgres");
    ("password", getenv env "DB_PASSWORD" "");
    ("host", getenv env "DB_HOST" "localhost");
    ("port", getenv env "DB_PORT" "5432");
    ("database", getenv env "DB_NAME" "customer_behavior")
  ].

(** The entries of the dict literal as a table: the key of the dict, the
    environment variable it is read from, and the default. *)
Definition settings_table : list (string * string * string) :=
  [ ("username", "DB_USERNAME", "postgres");
    ("password", "DB_PASSWORD", "");
    ("host", "DB_HOST", "localhost");
    ("port", "DB_PORT", "5432");
    ("database", "DB_NAME", "customer_behavior") ].

(** The keys of the returned dict and the variables the function reads. *)
Definition config_keys : list string := (λ e, e.1.1) <$> settings_table.
Definition db_vars : list string := (λ e, e.1.2) <$> settings_table.

(** The settings record of the specification. *)
Record DbSettings : Type := mk_settings {
  username : string;
  password : string;
  host : string;
  port : string;
  database : string;
}.

(** The specification's "retrieve settings". *)
Definition retrieve_settings (env : environ) : DbSettings :=
  {| username := getenv env "DB_USERNAME" "postgres";
     password := getenv env "DB_PASSWORD" "";
     host := getenv env "DB_HOST" "localhost";
     port := getenv env "DB_PORT" "5432";
     database := getenv env "DB_NAME" "customer_behavior" |}.

(** The record a dict stands for, when it has the five keys. *)
Definition settings_of_dict (d : gmap string string) : option DbSettings :=
  u ← d !! "username"; p ← d !! "password"; h ← d !! "host";
  n ← d !! "port"; b ← d !! "database";
  Some (mk_settings u p h n b).

(** The dict of a record. *)
Definition dict_of_settings (s : DbSettings) : gmap string string :=
  dict_literal [
    ("username", username s); ("password", password s); ("host", host s);
    ("port", port s); ("database", database s) ].

(** Two environments agree when they give the five variables the same
    values: the function cannot tell them apart. *)
Definition env_agree (env1 env2 : environ) : Prop :=
  Forall (λ var, env1 !! var = env2 !! var) db_vars.

(** Two environments used to instantiate the theorems: the one of the
    specification's worked example, and one that sets the password only. *)
Definition env_example : environ :=
  dict_literal [("DB_USERNAME", "alice"); ("DB_PASSWORD", "secret");
                ("DB_HOST", "db.example.com"); ("DB_PORT", "5433"); ("DB_NAME", "shop")].

Definition env_password_only : environ := <["DB_PASSWORD" := "pw"]> ∅.

Infix "≡db" := env_agree (at level 70, no associativity) : py_scope.

#[local] Open Scope py_scope.

#[export] Instance DbSettings_eq_dec : EqDecision DbSettings.
Proof. solve_decision. Defined.

#[export] Instance env_agree_dec env1 env2 : Decision (env1 ≡db env2).
Proof. unfold env_agree. apply _. Defined.

(** [dict_lookup] evaluates lookups in a dict literal with literal keys. *)
Ltac dict_lookup :=
  unfold get_db_config, dict_of_settings, dict_literal in *;
  simpl in *; simplify_map_eq; try done.

(** ** The entries of the dict *)

Lemma get_db_config_username env :
  get_db_config env !! "username" = Some (getenv env "DB_USERNAME" "postgres").
Proof. by dict_lookup. Qed.

Lemma get_db_config_password env :
  get_db_config env !! "password" = Some (getenv env "DB_PASSWORD" "").
Proof. by dict_lookup. Qed.

Lemma get_db_config_host env :
  get_db_config env !! "host" = Some (getenv env "DB_HOST" "localhost").
Proof. by dict_lookup. Qed.

Lemma get_db_config_port env :
  get_db_config env !! "port" = Some (getenv env "DB_PORT" "5432").
Proof. by dict_lookup. Qed.

Lemma get_db_config_database env :
  get_db_config env !! "database" = Some (getenv env "DB_NAME" "customer_behavior").
Proof. by dict_lookup. Qed.

Lemma get_db_config_other env k : k ∉ config_keys → get_db_config env !! k = None.
Proof.
  unfold config_keys. simpl. intros Hk. not_elem_of_cases Hk. by dict_lookup.
Qed.

#[export] Hint Rewrite get_db_config_username get_db_config_password
  get_db_config_host get_db_config_port get_db_config_database : py.

(** ** Environments that agree on the variables read *)

Lemma env_agree_lookup env1 env2 :
  env1 ≡db env2 ↔ ∀ var, var ∈ db_vars → env1 !! var = env2 !! var.
Proof. apply Forall_forall. Qed.

#[export] Instance env_agree_equiv : Equivalence env_agree.
Proof.
  split; repeat intro; apply env_agree_lookup; intros var Hvar.
  - done.
  - symmetry. by eapply env_agree_lookup.
  - etrans; by eapply env_agree_lookup.
Qed.

Lemma env_agree_getenv env1 env2 var default :
  env1 ≡db env2 → var ∈ db_vars → getenv env1 var default = getenv env2 var default.
Proof. intros H Hvar. by apply getenv_ext, env_agree_lookup. Qed.

Lemma env_agree_insert env var v : var ∉ db_vars → <[var := v]> env ≡db env.
Proof.
  intros Hvar. apply env_agree_lookup. intros var' Hvar'.
  apply lookup_insert_ne. by intros ->.
Qed.

Lemma env_agree_delete env var : var ∉ db_vars → delete var env ≡db env.
Proof.
  intros Hvar. apply env_agree_lookup. intros var' Hvar'.
  apply lookup_delete_ne. by intros ->.
Qed.

Lemma db_vars_table key var default :
  (key, var, default) ∈ settings_table → var ∈ db_vars.
Proof. intros H. unfold db_vars. by apply (list_elem_of_fmap_2 (λ e, e.1.2) _ (key, var, default)). Qed.

Lemma config_keys_table key var default :
  (key, var, default) ∈ settings_table → key ∈ config_keys.
Proof. intros H. unfold config_keys. by apply (list_elem_of_fmap_2 (λ e, e.1.1) _ (key, var, default)). Qed.

#[export] Instance get_db_config_proper : Proper (env_agree ==> (=)) get_db_config.
Proof.
  intros env1 env2 H. unfold get_db_config.
  by rewrite !(env_agree_getenv env1 env2) by (done || by repeat constructor).
Qed.

#[export] Instance retrieve_settings_proper : Proper (env_agree ==> (=)) retrieve_settings.
Proof.
  intros env1 env2 H. unfold retrieve_settings.
  by rewrite !(env_agree_getenv env1 env2) by (done || by repeat constructor).
Qed.

#[export] Hint Resolve env_agree_insert env_agree_delete db_vars_table
  config_keys_table : py.

(** ** The dict as a function of the environment *)

Lemma get_db_config_table env key var default :
  (key, var, default) ∈ settings_table →
  get_db_config env !! key = Some (getenv env var default).
Proof.
  unfold settings_table. intros Hrow. elem_of_cases Hrow; by dict_lookup.
Qed.

Lemma get_db_config_field env key var default v :
  (key, var, default) ∈ settings_table →
  getenv env var default = v →
  get_db_config env !! key = Some v.
Proof. intros Hrow <-. by apply get_db_config_table. Qed.

Lemma config_keys_row key :
  key ∈ config_keys → ∃ var default, (key, var, default) ∈ settings_table.
Proof. intros ([[? var] default] & -> & ?)%list_elem_of_fmap. by exists var, default. Qed.

(** The dict that [get_db_config] returns has exactly the five keys
    [username], [password], [host], [port] and [database], whatever the
    environment holds. *)
Theorem get_db_config_dom env : dom (get_db_config env) = list_to_set config_keys.
Proof.
  apply set_eq. intros k. rewrite elem_of_dom, elem_of_list_to_set. split.
  - intros [v Hv]. destruct (decide (k ∈ config_keys)) as [|Hk]; [done|].
    by rewrite (get_db_config_other _ _ Hk) in Hv.
  - intros (var & default & Hrow)%config_keys_row.
    by rewrite (get_db_config_table _ _ _ _ Hrow).
Qed.

(** Subscripting the returned dict returns a value exactly for the five
    keys; for any other key it raises [KeyError]. *)
Theorem get_db_config_subscript env k :
  (∃ v, subscript (get_db_config env) k = Return v) ↔ k ∈ config_keys.
Proof.
  split.
  - intros [v Hv%subscript_Return]. destruct (decide (k ∈ config_keys)) as [|Hk]; [done|].
    by rewrite (get_db_config_other _ _ Hk) in Hv.
  - intros (var & default & Hrow)%config_keys_row.
    eexists. by apply subscript_Some, get_db_config_table.
Qed.

(** C9: a field of the dict is the value of its environment variable when the
    variable is set, the empty string included: the default is not used for
    a variable that is set to the empty string. *)
Theorem get_db_config_set env key var default v :
  (key, var, default) ∈ settings_table →
  env !! var = Some v →
  get_db_config env !! key = Some v.
Proof. eauto using get_db_config_field, getenv_Some. Qed.

Lemma get_db_config_set_witness :
  get_db_config (<["DB_USERNAME" := ""]> ∅) !! "username" = Some "".
Proof.
  apply (get_db_config_set (<["DB_USERNAME" := ""]> ∅) "username" "DB_USERNAME" "postgres").
  - by repeat constructor.
  - apply lookup_insert_eq.
Defined.

(** C10: a field of the dict is the documented default when its environment
    variable is not set. *)
Theorem get_db_config_unset env key var default :
  (key, var, default) ∈ settings_table →
  env !! var = None →
  get_db_config env !! key = Some default.
Proof. eauto using get_db_config_field, getenv_None. Qed.

Lemma get_db_config_unset_witness :
  get_db_config (<["DB_PASSWORD" := "pw"]> ∅) !! "database" = Some "customer_behavior".
Proof.
  apply (get_db_config_unset (<["DB_PASSWORD" := "pw"]> ∅) "database" "DB_NAME").
  - by repeat constructor.
  - by apply lookup_insert_None.
Defined.

(** The returned dict stands for the settings record of the
    specification: all five fields are present and each is the value that
    "retrieve settings" gives. *)
Theorem get_db_config_refines env :
  settings_of_dict (get_db_config env) = Some (retrieve_settings env).
Proof. unfold settings_of_dict. by autorewrite with py. Qed.

(** Two environments give the same dict exactly when [os.getenv] gives
    the same value in both for each of the five variables: the function
    reads nothing else. *)
Theorem get_db_config_eq_iff env1 env2 :
  get_db_config env1 = get_db_config env2 ↔
  Forall (λ e, getenv env1 e.1.2 e.2 = getenv env2 e.1.2 e.2) settings_table.
Proof.
  rewrite Forall_forall. split.
  - intros Heq [[key var] default] Hrow. simpl.
    apply (f_equal (.!! key)) in Heq.
    rewrite !(get_db_config_table _ _ _ _ Hrow) in Heq. by injection Heq.
  - intros H. apply map_eq. intros k. destruct (decide (k ∈ config_keys)) as [Hk|Hk].
    + apply config_keys_row in Hk as (var & default & Hrow).
      rewrite !(get_db_config_table _ _ _ _ Hrow). f_equal. apply (H _ Hrow).
    + by rewrite !get_db_config_other.
Qed.

(** Setting a variable other than the five that are read does not change
    the result. *)
Theorem get_db_config_frame env var v :
  var ∉ db_vars → get_db_config (<[var := v]> env) = get_db_config env.
Proof. intros Hvar. by rewrite (env_agree_insert env var v Hvar). Qed.

Lemma get_db_config_frame_witness :
  get_db_config (<["PATH" := "/usr/bin"]> ∅) = get_db_config ∅.
Proof. apply get_db_config_frame. unfold db_vars. simpl. set_solver. Defined.

(** ** The settings after the environment file is loaded *)

Section loader.
Context `{EnvLoader}.

(** A variable that is set in the environment before [load_dotenv()]
    runs determines its field afterwards, for every loader that meets the
    interface: the environment file cannot replace it. *)
Theorem get_db_config_load_keeps env key var default v :
  (key, var, default) ∈ settings_table →
  env !! var = Some v →
  get_db_config (load_dotenv env) !! key = Some v.
Proof. eauto using get_db_config_field, getenv_Some, load_dotenv_keeps. Qed.

End loader.

Lemma get_db_config_load_keeps_witness :
  get_db_config (dotenv_load (Some [("DB_HOST", "filehost")]) (<["DB_HOST" := "envhost"]> ∅))
    !! "host" = Some "envhost".
Proof.
  apply (get_db_config_load_keeps (H:=dotenv_loader (Some [("DB_HOST", "filehost")]))
    (<["DB_HOST" := "envhost"]> ∅) "host" "DB_HOST" "localhost").
  - by repeat constructor.
  - apply lookup_insert_eq.
Defined.

(** A variable that is not set in the environment and that the
    environment file binds takes the file's value. *)
Theorem get_db_config_dotenv_fills bindings env key var default v :
  (key, var, default) ∈ settings_table →
  env !! var = None →
  dotenv_values bindings !! var = Some v →
  get_db_config (dotenv_load (Some bindings) env) !! key = Some v.
Proof.
  intros Hrow Hvar Hfile. eapply get_db_config_field; [done|].
  apply getenv_Some. by rewrite dotenv_load_adds.
Qed.

Lemma get_db_config_dotenv_fills_witness :
  get_db_config (dotenv_load (Some [("DB_PORT", "6543")]) ∅) !! "port" = Some "6543".
Proof.
  apply (get_db_config_dotenv_fills [("DB_PORT", "6543")] ∅ "port" "DB_PORT" "5432").
  - by repeat constructor.
  - apply lookup_empty.
  - apply lookup_insert_eq.
Defined.

(** ** Records and dicts *)

Lemma settings_of_dict_of_settings s : settings_of_dict (dict_of_settings s) = Some s.
Proof. destruct s. unfold settings_of_dict. by dict_lookup. Qed.

(** ** Subscripts of the returned dict *)

Lemma subscript_get_db_config env key var default :
  (key, var, default) ∈ settings_table →
  subscript (get_db_config env) key = Return (getenv env var default).
Proof. intros Hrow. by apply subscript_Some, get_db_config_table. Qed.

Lemma subscript_username env :
  subscript (get_db_config env) "username" = Return (getenv env "DB_USERNAME" "postgres").
Proof. apply subscript_get_db_config. by repeat constructor. Qed.

Lemma subscript_password env :
  subscript (get_db_config env) "password" = Return (getenv env "DB_PASSWORD" "").
Proof. apply subscript_get_db_config. by repeat constructor. Qed.

Lemma subscript_host env :
  subscript (get_db_config env) "host" = Return (getenv env "DB_HOST" "localhost").
Proof. apply subscript_get_db_config. by repeat constructor. Qed.

Lemma subscript_port env :
  subscript (get_db_config env) "port" = Return (getenv env "DB_PORT" "5432").
Proof. apply subscript_get_db_config. by repeat constructor. Qed.

Lemma subscript_database env :
  subscript (get_db_config env) "database" = Return (getenv env "DB_NAME" "customer_behavior").
Proof. apply subscript_get_db_config. by repeat constructor. Qed.

#[export] Hint Rewrite subscript_username subscript_password subscript_host
  subscript_port subscript_database : py.
