(* ===== verification/Validate.v ===== *)
(** * [validate_db_config]: the presence checks

    The function [validate_db_config()] of [config/db_config.py]: three
    checks in a fixed order, each returning a pair of a flag and a message.
    With it, the specification's "validate settings" on settings records, and
    how the outcome of validation relates to the outcome of
    [get_db_connection_string] on the same environment. *)

From stdpp Require Import base tactics option strings list gmap fin_maps.
From S2P Require Import Prelude PyString Environ DbConfig ConnString.

#[local] Open Scope py_scope.

(** ** Definitions *)

(** Lines 63-72, on the dict that [config] is bound to: the password, then
    the username, then the database name; the first empty one is reported. *)
Definition validation_of_config (config : gmap string string) : result (bool * string) :=
  let! password := subscript config "password" in
  if negb (truthy password)
  then Return (false, "DB_PASSWORD is not set in environment variables")
  else
    let! username := subscript config "username" in
    if negb (truthy username)
    then Return (false, "DB_USERNAME is not set in environment variables")
    else
      let! database := subscript config "database" in
      if negb (truthy database)
      then Return (false, "DB_NAME is not set in environment variables")
      else Return (true, "Configuration is valid").

(** [validate_db_config()]: read the settings, then the above. *)
Definition validate_db_config (env : environ) : result (bool * string) :=
  let config := get_db_config env in
  validation_of_config config.

(** The specification's "validate settings": which field is missing, if any,
    in the order password, username, database. *)
Inductive Missing : Type :=
| MissingPassword
| MissingUsername
| MissingDatabase.

Definition check_settings (s : DbSettings) : option Missing :=
  if decide (password s = "") then Some MissingPassword
  else if decide (username s = "") then Some MissingUsername
  else if decide (database s = "") then Some MissingDatabase
  else None.

(** The environment variable behind a missing field. *)
Definition missing_var (m : Missing) : string :=
  match m with
  | MissingPassword => "DB_PASSWORD"
  | MissingUsername => "DB_USERNAME"
  | MissingDatabase => "DB_NAME"
  end.

(** The pair reported for a check result. *)
Definition validation_report (o : option Missing) : bool * string :=
  match o with
  | None => (true, "Configuration is valid")
  | Some m => (false, missing_var m +:+ " is not set in environment variables")
  end.

Definition validate_settings (s : DbSettings) : bool * string :=
  validation_report (check_settings s).

(** The variables whose values validation looks at. *)
Definition validated_vars : list string := ["DB_PASSWORD"; "DB_USERNAME"; "DB_NAME"].

(** An environment with a password and an empty username, and one with an
    empty host. *)
Definition env_empty_username : environ :=
  dict_literal [("DB_PASSWORD", "pw"); ("DB_USERNAME", "")].

Definition env_empty_host : environ := <["DB_HOST" := ""]> env_example.

#[export] Instance Missing_eq_dec : EqDecision Missing.
Proof. solve_decision. Defined.

(** ** The branches of the function *)

Lemma validate_db_config_unfold env :
  validate_db_config env =
    if negb (truthy (getenv env "DB_PASSWORD" ""))
    then Return (false, "DB_PASSWORD is not set in environment variables")
    else if negb (truthy (getenv env "DB_USERNAME" "postgres"))
    then Return (false, "DB_USERNAME is not set in environment variables")
    else if negb (truthy (getenv env "DB_NAME" "customer_behavior"))
    then Return (false, "DB_NAME is not set in environment variables")
    else Return (true, "Configuration is valid").
Proof.
  unfold validate_db_config, validation_of_config. autorewrite with py. simpl.
  destruct (truthy (getenv env "DB_PASSWORD" "")); simpl; [|done].
  autorewrite with py. simpl.
  destruct (truthy (getenv env "DB_USERNAME" "postgres")); simpl; [|done].
  by autorewrite with py.
Qed.

(** [validate_cases] splits a goal on the three tests of the function. *)
Ltac validate_cases env :=
  rewrite ?validate_db_config_unfold, ?get_db_connection_string_unfold;
  destruct (getenv env "DB_PASSWORD" "") eqn:?;
  destruct (getenv env "DB_USERNAME" "postgres") eqn:?;
  destruct (getenv env "DB_NAME" "customer_behavior") eqn:?; simpl.

#[export] Instance validate_db_config_proper : Proper (env_agree ==> (=)) validate_db_config.
Proof.
  intros env1 env2 H. unfold validate_db_config.
  by rewrite (get_db_config_proper _ _ H).
Qed.

(** C8: validation never raises: it returns one of four pairs, the flag
    being [True] exactly for the message "Configuration is valid". *)
Theorem validate_db_config_total env :
  ∃ r, validate_db_config env = Return r ∧
       r ∈ [ (false, "DB_PASSWORD is not set in environment variables");
             (false, "DB_USERNAME is not set in environment variables");
             (false, "DB_NAME is not set in environment variables");
             (true, "Configuration is valid") ].
Proof. validate_cases env; eexists; (split; [done|]); set_solver. Qed.

(** C3: validation succeeds exactly when the password, the username and the
    database name are all non-empty (the username and the database name
    being their defaults when unset). *)
Theorem validate_db_config_valid env :
  validate_db_config env = Return (true, "Configuration is valid") ↔
  getenv env "DB_PASSWORD" "" ≠ "" ∧ getenv env "DB_USERNAME" "postgres" ≠ "" ∧
  getenv env "DB_NAME" "customer_behavior" ≠ "".
Proof. validate_cases env; naive_solver. Qed.

(** C4: an unset or empty password is reported first, whatever the other
    settings are: the password message is returned exactly when the password
    is empty. *)
Theorem validate_db_config_password env :
  validate_db_config env =
    Return (false, "DB_PASSWORD is not set in environment variables") ↔
  env !! "DB_PASSWORD" = None ∨ env !! "DB_PASSWORD" = Some "".
Proof. rewrite <-getenv_empty. validate_cases env; naive_solver. Qed.

(** C5: the username is checked second: the username message is returned
    exactly when the password is non-empty and [DB_USERNAME] is set to the
    empty string; an unset [DB_USERNAME] is the default [postgres], which
    passes. *)
Theorem validate_db_config_username env :
  validate_db_config env =
    Return (false, "DB_USERNAME is not set in environment variables") ↔
  getenv env "DB_PASSWORD" "" ≠ "" ∧ env !! "DB_USERNAME" = Some "".
Proof.
  rewrite <-(getenv_empty_default env "DB_USERNAME" "postgres") by done.
  validate_cases env; naive_solver.
Qed.

(** C6: the database name is checked last: the database message is returned
    exactly when the password and the username are non-empty and [DB_NAME]
    is set to the empty string. *)
Theorem validate_db_config_database env :
  validate_db_config env =
    Return (false, "DB_NAME is not set in environment variables") ↔
  getenv env "DB_PASSWORD" "" ≠ "" ∧ getenv env "DB_USERNAME" "postgres" ≠ "" ∧
  env !! "DB_NAME" = Some "".
Proof.
  rewrite <-(getenv_empty_default env "DB_NAME" "customer_behavior") by done.
  validate_cases env; naive_solver.
Qed.

(** C35: the function implements the specification's "validate settings" on
    the retrieved settings: the same flag and the same message. *)
Theorem validate_db_config_refines env :
  validate_db_config env = Return (validate_settings (retrieve_settings env)).
Proof.
  unfold validate_settings, check_settings. simpl.
  validate_cases env; by repeat case_decide.
Qed.

(** ** Validation and the connection string *)

(** When validation succeeds, [get_db_connection_string] on the same
    environment returns the URL: it does not raise. *)
Theorem validate_valid_connection_string env :
  validate_db_config env = Return (true, "Configuration is valid") →
  get_db_connection_string env = Return (format_settings (retrieve_settings env)).
Proof.
  rewrite validate_db_config_unfold, get_db_connection_string_unfold.
  destruct (truthy (getenv env "DB_PASSWORD" "")); simpl; [done|by intros [=]].
Qed.

Lemma validate_valid_connection_string_witness :
  get_db_connection_string env_example =
  Return (format_settings (retrieve_settings env_example)).
Proof. apply (validate_valid_connection_string env_example). by vm_compute. Defined.

(** The two functions agree on the password: [get_db_connection_string]
    raises its [ValueError] exactly when validation reports the password. *)
Theorem password_check_agrees env :
  get_db_connection_string env = Raise (ValueError password_not_set) ↔
  validate_db_config env =
    Return (false, "DB_PASSWORD is not set in environment variables").
Proof. validate_cases env; naive_solver. Qed.

(** Validation, then the connection string, on one environment: validation
    returns a pair; the connection string is refused exactly when the pair
    reports the password, and is built when the pair reports a valid
    configuration. *)
Lemma validate_then_connection_string env :
  ∃ b msg, validate_db_config env = Return (b, msg) ∧
    (get_db_connection_string env = Raise (ValueError password_not_set) ↔
     msg = "DB_PASSWORD is not set in environment variables") ∧
    (b = true →
     get_db_connection_string env = Return (format_settings (retrieve_settings env))) ∧
    (get_db_connection_string env = Raise (ValueError password_not_set) ∨
     get_db_connection_string env = Return (format_settings (retrieve_settings env))).
Proof.
  validate_cases env; eexists _, _; (split; [done|]); split_and!; try split; try done; auto.
Qed.

(** C12: validation is stricter than the connection string: with a password
    and an empty username or database name, [get_db_connection_string]
    returns a URL although validation fails. *)
Theorem connection_string_without_validation env :
  getenv env "DB_PASSWORD" "" ≠ "" →
  env !! "DB_USERNAME" = Some "" ∨ env !! "DB_NAME" = Some "" →
  get_db_connection_string env = Return (format_settings (retrieve_settings env)) ∧
  ∃ msg, validate_db_config env = Return (false, msg).
Proof.
  intros Hp Hempty. split.
  { rewrite get_db_connection_string_unfold. by apply truthy_true in Hp as ->. }
  rewrite <-(getenv_empty_default env "DB_USERNAME" "postgres"),
    <-(getenv_empty_default env "DB_NAME" "customer_behavior") in Hempty by done.
  validate_cases env; naive_solver.
Qed.

Lemma connection_string_without_validation_witness :
  get_db_connection_string env_empty_username =
    Return (format_settings (retrieve_settings env_empty_username)) ∧
  ∃ msg, validate_db_config env_empty_username = Return (false, msg).
Proof.
  apply (connection_string_without_validation env_empty_username).
  - by vm_compute.
  - left. by vm_compute.
Defined.

Example connection_string_empty_username :
  get_db_connection_string env_empty_username =
    Return "postgresql://:pw@localhost:5432/customer_behavior" ∧
  validate_db_config env_empty_username =
    Return (false, "DB_USERNAME is not set in environment variables").
Proof. by vm_compute. Qed.

(** C40: validation looks at three variables only: setting any other
    variable, [DB_HOST] and [DB_PORT] included, to any value, the empty
    string included, does not change its result. *)
Theorem validate_db_config_frame env var v :
  var ∉ validated_vars →
  validate_db_config (<[var := v]> env) = validate_db_config env.
Proof.
  unfold validated_vars. intros Hvar. rewrite !validate_db_config_unfold.
  not_elem_of_cases Hvar. by rewrite !getenv_insert_ne by done.
Qed.

Lemma validate_db_config_frame_witness :
  validate_db_config (<["DB_HOST" := ""]> env_example) = validate_db_config env_example.
Proof. apply validate_db_config_frame. compute_done. Defined.

(** Validation does not reveal the password: its result is the same for
    any two passwords that are not empty, so no message holds the
    password or depends on it. *)
Theorem validate_db_config_password_secret env p1 p2 :
  p1 ≠ "" → p2 ≠ "" →
  validate_db_config (<["DB_PASSWORD" := p1]> env) =
  validate_db_config (<["DB_PASSWORD" := p2]> env).
Proof.
  intros Hp1%truthy_true Hp2%truthy_true. rewrite !validate_db_config_unfold.
  by rewrite !getenv_insert, Hp1, Hp2, !getenv_insert_ne by done.
Qed.

Example connection_string_empty_host :
  validate_db_config env_empty_host = Return (true, "Configuration is valid") ∧
  get_db_connection_string env_empty_host = Return "postgresql://alice:secret@:5433/shop".
Proof. by vm_compute. Qed.
