(* ===== verification/Bodies.v ===== *)
(** * The function bodies as syntax

    The three functions of [db_config.py], written down as Python writes
    them: expressions and statements of the fragment of Python that the
    module uses, and the bodies of the three [def] statements as terms of
    that syntax.  An evaluator gives the fragment its meaning; it records
    the environment variables that a call reads, in the order of the reads,
    and lets the environment differ from one read to the next, as it does
    when another thread writes it.  The file shows that the bodies evaluate
    to what the functions of [DbConfig], [ConnString] and [Validate]
    return, and that each call reads the five variables, once each, in the
    order of the dict literal. *)

From stdpp Require Import base tactics option strings list gmap fin_maps.
From S2P Require Import Prelude PyString Environ DbConfig ConnString Validate Package.

#[local] Open Scope py_scope.
#[local] Set Warnings "-register-all".

(** ** Syntax *)

(** Expressions: the forms that occur in lines 24-72. *)
Inductive expr : Type :=
| EStr (s : string)                      (* 'postgres' *)
| EBool (b : bool)                       (* True, False *)
| EName (x : string)                     (* config *)
| EGetenv (key default : expr)           (* os.getenv(key, default) *)
| ECall (f : string)                     (* get_db_config() *)
| EDict (items : list (expr * expr))     (* {key: value, ...} *)
| ESubscript (e key : expr)              (* e[key] *)
| ENot (e : expr)                        (* not e *)
| EJoinedStr (parts : list expr)         (* f"...{e}..." *)
| ETuple (e1 e2 : expr)                  (* e1, e2 *)
| EValueError (msg : expr).              (* ValueError(msg) *)

(** Statements. *)
Inductive cmd : Type :=
| CAssign (x : string) (e : expr)        (* x = e *)
| CIf (test : expr) (body : list cmd)    (* if test: body *)
| CRaise (e : expr)                      (* raise e *)
| CReturn (e : expr).                    (* return e *)

(** Values. *)
Inductive pval : Type :=
| PNone
| PStr (s : string)
| PBool (b : bool)
| PDict (d : gmap string pval)
| PTuple (a b : pval)
| PExc (e : exn).

(** ** The bodies *)

(** Lines 24-30. *)
Definition get_db_config_def : list cmd :=
  [ CReturn (EDict [
      (EStr "username", EGetenv (EStr "DB_USERNAME") (EStr "postgres"));
      (EStr "password", EGetenv (EStr "DB_PASSWORD") (EStr ""));
      (EStr "host", EGetenv (EStr "DB_HOST") (EStr "localhost"));
      (EStr "port", EGetenv (EStr "DB_PORT") (EStr "5432"));
      (EStr "database", EGetenv (EStr "DB_NAME") (EStr "customer_behavior"))
    ]) ].

(** Lines 41-51.  The two adjacent f-strings of lines 49-50 are one string
    literal to the parser. *)
Definition get_db_connection_string_def : list cmd :=
  [ CAssign "config" (ECall "get_db_config");
    CIf (ENot (ESubscript (EName "config") (EStr "password")))
      [ CRaise (EValueError
          (EStr "Database password not set. Please set DB_PASSWORD in .env file.")) ];
    CReturn (EJoinedStr [
      EStr "postgresql://"; ESubscript (EName "config") (EStr "username");
      EStr ":"; ESubscript (EName "config") (EStr "password");
      EStr "@"; ESubscript (EName "config") (EStr "host");
      EStr ":"; ESubscript (EName "config") (EStr "port");
      EStr "/"; ESubscript (EName "config") (EStr "database") ]) ].

(** Lines 61-72. *)
Definition validate_db_config_def : list cmd :=
  [ CAssign "config" (ECall "get_db_config");
    CIf (ENot (ESubscript (EName "config") (EStr "password")))
      [ CReturn (ETuple (EBool false)
          (EStr "DB_PASSWORD is not set in environment variables")) ];
    CIf (ENot (ESubscript (EName "config") (EStr "username")))
      [ CReturn (ETuple (EBool false)
          (EStr "DB_USERNAME is not set in environment variables")) ];
    CIf (ENot (ESubscript (EName "config") (EStr "database")))
      [ CReturn (ETuple (EBool false)
          (EStr "DB_NAME is not set in environment variables")) ];
    CReturn (ETuple (EBool true) (EStr "Configuration is valid")) ].

(** The functions that the [def] statements of lines 17, 33 and 54 bind. *)
Definition db_config_defs : gmap string (list cmd) :=
  <["validate_db_config" := validate_db_config_def]>
    (<["get_db_connection_string" := get_db_connection_string_def]>
      (<["get_db_config" := get_db_config_def]> ∅)).

(** ** Evaluation *)

(** An evaluation returns or raises, and reads variables of the
    environment on the way.  It is told how many reads the call has made
    before it and gives the variables that it reads itself, in order.  It
    is undefined ([None]) on programs outside the fragment (a dict key or a
    part of an f-string that is not a string) and when the calls nest
    deeper than the fuel allows. *)
Definition evalM (A : Type) : Type := nat → option (result A * list string).

Definition eret {A : Type} (a : A) : evalM A := λ _, Some (Return a, []).

Definition eraise {A : Type} (e : exn) : evalM A := λ _, Some (Raise e, []).

Definition eundef {A : Type} : evalM A := λ _, None.

Definition ebind {A B : Type} (c : evalM A) (k : A → evalM B) : evalM B :=
  λ n,
    match c n with
    | None => None
    | Some (Return a, t) =>
        match k a (length t + n) with
        | None => None
        | Some (r, t') => Some (r, t ++ t')
        end
    | Some (Raise e, t) => Some (Raise e, t)
    end.

(** [os.getenv(key, default)], as read number [n] of the call: [envs n] is
    the environment at that moment.  A call that runs alone finds the same
    environment at every read. *)
Definition eread (envs : nat → environ) (key default : string) : evalM pval :=
  λ n, Some (Return (PStr (getenv (envs n) key default)), [key]).

Notation "'let?' x ':=' c 'in' k" := (ebind c (fun x => k))
  (at level 10, x name, c at level 100, k at level 200) : py_scope.

(** [bool(v)] *)
Definition truth (v : pval) : bool :=
  match v with
  | PNone => false
  | PStr s => truthy s
  | PBool b => b
  | PDict d => negb (bool_decide (d = ∅))
  | PTuple _ _ | PExc _ => true
  end.

Section eval.
Context (call : string → evalM pval) (envs : nat → environ).

Fixpoint eval_expr (locals : gmap string pval) (e : expr) {struct e} : evalM pval :=
  match e with
  | EStr s => eret (PStr s)
  | EBool b => eret (PBool b)
  | EName x =>
      match locals !! x with
      | Some v => eret v
      | None => eraise (NameError x)
      end
  | EGetenv key default =>
      let? k := eval_expr locals key in
      let? d := eval_expr locals default in
      match k, d with
      | PStr k, PStr d => eread envs k d
      | _, _ => eundef
      end
  | ECall f => call f
  | EDict items =>
      let? d :=
        (fix build (d : gmap string pval) (items : list (expr * expr)) :=
           match items with
           | [] => eret d
           | item :: items =>
               let? k := eval_expr locals item.1 in
               let? v := eval_expr locals item.2 in
               match k with
               | PStr k => build (<[k := v]> d) items
               | _ => eundef
               end
           end) ∅ items in
      eret (PDict d)
  | ESubscript e key =>
      let? v := eval_expr locals e in
      let? k := eval_expr locals key in
      match v, k with
      | PDict d, PStr k =>
          match d !! k with
          | Some v => eret v
          | None => eraise (KeyError k)
          end
      | _, _ => eundef
      end
  | ENot e => let? v := eval_expr locals e in eret (PBool (negb (truth v)))
  | EJoinedStr parts =>
      let? s :=
        (fix join (s : string) (parts : list expr) :=
           match parts with
           | [] => eret s
           | part :: parts =>
               let? v := eval_expr locals part in
               match v with
               | PStr s' => join (s +:+ s') parts
               | _ => eundef
               end
           end) "" parts in
      eret (PStr s)
  | ETuple e1 e2 =>
      let? v1 := eval_expr locals e1 in
      let? v2 := eval_expr locals e2 in
      eret (PTuple v1 v2)
  | EValueError msg =>
      let? v := eval_expr locals msg in
      match v with
      | PStr s => eret (PExc (ValueError s))
      | _ => eundef
      end
  end.

(** The items of a dict literal, from left to right. *)
Definition eval_items (locals : gmap string pval) :
    gmap string pval → list (expr * expr) → evalM (gmap string pval) :=
  fix build d items :=
    match items with
    | [] => eret d
    | item :: items =>
        let? k := eval_expr locals item.1 in
        let? v := eval_expr locals item.2 in
        match k with
        | PStr k => build (<[k := v]> d) items
        | _ => eundef
        end
    end.

(** The parts of an f-string, from left to right. *)
Definition eval_parts (locals : gmap string pval) : string → list expr → evalM string :=
  fix join s parts :=
    match parts with
    | [] => eret s
    | part :: parts =>
        let? v := eval_expr locals part in
        match v with
        | PStr s' => join (s +:+ s') parts
        | _ => eundef
        end
    end.

(** A statement ends with new local variables ([inl]) or returns a value
    ([inr]). *)
Fixpoint exec_cmd (locals : gmap string pval) (c : cmd) {struct c} :
    evalM (gmap string pval + pval) :=
  match c with
  | CAssign x e => let? v := eval_expr locals e in eret (inl (<[x := v]> locals))
  | CIf test body =>
      let? v := eval_expr locals test in
      if truth v
      then (fix block (locals : gmap string pval) (cs : list cmd) :=
              match cs with
              | [] => eret (inl locals)
              | c :: cs =>
                  let? r := exec_cmd locals c in
                  match r with
                  | inl locals' => block locals' cs
                  | inr v => eret (inr v)
                  end
              end) locals body
      else eret (inl locals)
  | CRaise e =>
      let? v := eval_expr locals e in
      match v with
      | PExc x => eraise x
      | _ => eraise (TypeError "exceptions must derive from BaseException")
      end
  | CReturn e => let? v := eval_expr locals e in eret (inr v)
  end.

Fixpoint exec_block (locals : gmap string pval) (cs : list cmd) :
    evalM (gmap string pval + pval) :=
  match cs with
  | [] => eret (inl locals)
  | c :: cs =>
      let? r := exec_cmd locals c in
      match r with
      | inl locals' => exec_block locals' cs
      | inr v => eret (inr v)
      end
  end.

End eval.

(** A call of [f()]: the body runs with no local variables; a body that
    ends without [return] gives [None].  The fuel bounds the depth of the
    calls. *)
Fixpoint call_def (fuel : nat) (defs : gmap string (list cmd)) (envs : nat → environ)
    (f : string) : evalM pval :=
  match fuel with
  | 0 => eundef
  | S fuel =>
      match defs !! f with
      | None => eraise (NameError f)
      | Some body =>
          let? r := exec_block (call_def fuel defs envs) envs ∅ body in
          match r with
          | inl _ => eret PNone
          | inr v => eret v
          end
      end
  end.

(** The values of [Package] among the values of the evaluator. *)
Definition pval_of (v : value) : pval :=
  match v with
  | VDict d => PDict (PStr <$> d)
  | VStr s => PStr s
  | VPair b msg => PTuple (PBool b) (PStr msg)
  end.

(** The depth of the calls that a function of [db_config.py] makes: two of
    the functions call [get_db_config], which calls none. *)
Definition depth_of (f : func) : nat :=
  match f with
  | GetDbConfig => 1
  | GetDbConnectionString | ValidateDbConfig => 2
  end.

(** An evaluation that is defined wherever another is, with the same
    outcome. *)
Definition defined_as {A : Type} (c1 c2 : evalM A) : Prop :=
  ∀ n r, c1 n = Some r → c2 n = Some r.

Infix "⊑" := defined_as (at level 70, no associativity) : py_scope.

(** An evaluation in [envs2] that has the outcome and the reads of one in
    [envs1], provided the two bind alike each variable read, at the moment
    of its read. *)
Definition same_on {A : Type} (envs1 envs2 : nat → environ) (c1 c2 : evalM A) : Prop :=
  ∀ n rt, c1 n = Some rt →
    (∀ i var, rt.2 !! i = Some var → envs1 (i + n) !! var = envs2 (i + n) !! var) →
    c2 n = Some rt.

(** The dict of [get_db_config] when the environment changes between the
    reads: the entry number [i] is read from the environment of the read
    number [i + n].  With one environment throughout this is
    [get_db_config]. *)
Definition get_db_config_at (envs : nat → environ) (n : nat) : gmap string string :=
  dict_literal [
    ("username", getenv (envs n) "DB_USERNAME" "postgres");
    ("password", getenv (envs (1 + n)) "DB_PASSWORD" "");
    ("host", getenv (envs (2 + n)) "DB_HOST" "localhost");
    ("port", getenv (envs (3 + n)) "DB_PORT" "5432");
    ("database", getenv (envs (4 + n)) "DB_NAME" "customer_behavior")
  ].

(** What a call of a function of [Package] gives, as an evaluation that
    reads the five variables. *)
Definition reads_all (r : result value) : option (result pval * list string) :=
  Some (match r with Return v => Return (pval_of v) | Raise e => Raise e end, db_vars).

(** ** Laws of the evaluator *)

Section laws.
Context (call : string → evalM pval) (envs : nat → environ).
Implicit Types (locals : gmap string pval) (e : expr) (c : cmd).

Lemma exec_cmd_if locals test body :
  exec_cmd call envs locals (CIf test body) =
    let? v := eval_expr call envs locals test in
    if truth v then exec_block call envs locals body else eret (inl locals).
Proof. done. Qed.

Lemma eval_expr_dict locals items :
  eval_expr call envs locals (EDict items) =
    let? d := eval_items call envs locals ∅ items in eret (PDict d).
Proof. done. Qed.

Lemma eval_expr_joined locals parts :
  eval_expr call envs locals (EJoinedStr parts) =
    let? s := eval_parts call envs locals "" parts in eret (PStr s).
Proof. done. Qed.

Lemma ebind_eret {A B} (a : A) (k : A → evalM B) n : ebind (eret a) k n = k a n.
Proof. unfold ebind, eret. simpl. by destruct (k a n) as [[r t]|]. Qed.

End laws.

Lemma call_def_S fuel defs envs f :
  call_def (S fuel) defs envs f =
    match defs !! f with
    | None => eraise (NameError f)
    | Some body =>
        let? r := exec_block (call_def fuel defs envs) envs ∅ body in
        match r with
        | inl _ => eret PNone
        | inr v => eret v
        end
    end.
Proof. done. Qed.

(** ** Induction on the syntax *)

Section expr_induction.
Context (P : expr → Prop).
Context (HStr : ∀ s, P (EStr s)) (HBool : ∀ b, P (EBool b)) (HName : ∀ x, P (EName x))
  (HGetenv : ∀ key default, P key → P default → P (EGetenv key default))
  (HCall : ∀ f, P (ECall f))
  (HDict : ∀ items, Forall (λ item, P item.1 ∧ P item.2) items → P (EDict items))
  (HSubscript : ∀ e key, P e → P key → P (ESubscript e key))
  (HNot : ∀ e, P e → P (ENot e))
  (HJoinedStr : ∀ parts, Forall P parts → P (EJoinedStr parts))
  (HTuple : ∀ e1 e2, P e1 → P e2 → P (ETuple e1 e2))
  (HValueError : ∀ msg, P msg → P (EValueError msg)).

Lemma expr_nested_ind e : P e.
Proof.
  revert e. fix IH 1. intros [s|b|x|key default|f|items|e key|e|parts|e1 e2|msg].
  - apply HStr.
  - apply HBool.
  - apply HName.
  - apply HGetenv; apply IH.
  - apply HCall.
  - apply HDict. induction items as [|[k v] items IHitems]; constructor; [|done].
    split; apply IH.
  - apply HSubscript; apply IH.
  - apply HNot, IH.
  - apply HJoinedStr. induction parts as [|part parts IHparts]; constructor; [|done].
    apply IH.
  - apply HTuple; apply IH.
  - apply HValueError, IH.
Qed.

End expr_induction.

Section cmd_induction.
Context (P : cmd → Prop).
Context (HAssign : ∀ x e, P (CAssign x e))
  (HIf : ∀ test body, Forall P body → P (CIf test body))
  (HRaise : ∀ e, P (CRaise e)) (HReturn : ∀ e, P (CReturn e)).

Lemma cmd_nested_ind c : P c.
Proof.
  revert c. fix IH 1. intros [x e|test body|e|e].
  - apply HAssign.
  - apply HIf. induction body as [|c body IHbody]; constructor; [|done]. apply IH.
  - apply HRaise.
  - apply HReturn.
Qed.

End cmd_induction.

(** ** More fuel *)

Section order.
Context {A B : Type}.
Implicit Types (c : evalM A) (k : A → evalM B).

#[export] Instance defined_as_preorder : PreOrder (@defined_as A).
Proof. split; [by intros c n r|]. intros c1 c2 c3 H12 H23 n r. auto. Qed.

Lemma defined_as_eundef c : eundef ⊑ c.
Proof. by intros n r. Qed.

Lemma ebind_mono c1 c2 k1 k2 :
  c1 ⊑ c2 → (∀ a, k1 a ⊑ k2 a) → ebind c1 k1 ⊑ ebind c2 k2.
Proof.
  intros Hc Hk n r. unfold ebind. destruct (c1 n) as [[[a|e] t]|] eqn:Hc1; [..|done].
  - rewrite (Hc _ _ Hc1). destruct (k1 a _) as [[r1 t1]|] eqn:Hk1; [|done].
    by rewrite (Hk _ _ _ Hk1).
  - by rewrite (Hc _ _ Hc1).
Qed.

Lemma same_on_refl envs1 envs2 c : same_on envs1 envs2 c c.
Proof. by intros n rt. Qed.

Lemma same_on_bind envs1 envs2 c1 c2 k1 k2 :
  same_on envs1 envs2 c1 c2 → (∀ a, same_on envs1 envs2 (k1 a) (k2 a)) →
  same_on envs1 envs2 (ebind c1 k1) (ebind c2 k2).
Proof.
  intros Hc Hk n [r t]. unfold ebind.
  destruct (c1 n) as [[[a|e] t1]|] eqn:Hc1; [..|done].
  - destruct (k1 a _) as [[r1 t2]|] eqn:Hk1; [|done]. intros [= -> <-] Ht. simpl in Ht.
    rewrite (Hc _ _ Hc1), (Hk _ _ _ Hk1); [done|..].
    + intros i var Hi. rewrite Nat.add_assoc, (Nat.add_comm i).
      apply Ht. by rewrite lookup_app_r, Nat.add_comm, Nat.add_sub by lia.
    + intros i var Hi. apply Ht. by apply lookup_app_l_Some.
  - intros [= <- <-] Ht. by rewrite (Hc _ _ Hc1).
Qed.

End order.

#[export] Hint Resolve defined_as_eundef : py.

(** ** Related evaluations

    Two evaluations of the same syntax, with different environments or
    different meanings of the calls, are related by every relation that
    [ebind] respects and that relates the calls and the reads. *)

Section relate.
Context (R : ∀ A, relation (evalM A)).
Context (R_refl : ∀ A (c : evalM A), R A c c).
Context (R_bind : ∀ A B (c1 c2 : evalM A) (k1 k2 : A → evalM B),
  R A c1 c2 → (∀ a, R B (k1 a) (k2 a)) → R B (ebind c1 k1) (ebind c2 k2)).
Context (call1 call2 : string → evalM pval) (env1 env2 : nat → environ).
Context (R_call : ∀ f, R pval (call1 f) (call2 f)).
Context (R_read : ∀ k d, R pval (eread env1 k d) (eread env2 k d)).
Implicit Types (locals : gmap string pval).

Ltac rel_step :=
  first [ apply R_call | apply R_read | apply R_refl
        | apply R_bind; [by auto|intros ?]
        | progress case_match ].

Lemma eval_items_rel items locals d :
  Forall (λ item,
    (∀ locals, R _ (eval_expr call1 env1 locals item.1) (eval_expr call2 env2 locals item.1)) ∧
    (∀ locals, R _ (eval_expr call1 env1 locals item.2) (eval_expr call2 env2 locals item.2)))
    items →
  R _ (eval_items call1 env1 locals d items) (eval_items call2 env2 locals d items).
Proof.
  intros Hitems. revert d.
  induction Hitems as [|item items [Hk Hv] _ IH]; intros d; simpl; repeat rel_step.
  apply IH.
Qed.

Lemma eval_parts_rel parts locals s :
  Forall (λ e, ∀ locals, R _ (eval_expr call1 env1 locals e) (eval_expr call2 env2 locals e))
    parts →
  R _ (eval_parts call1 env1 locals s parts) (eval_parts call2 env2 locals s parts).
Proof.
  intros Hparts. revert s.
  induction Hparts as [|part parts Hpart _ IH]; intros s; simpl; repeat rel_step.
  apply IH.
Qed.

Lemma eval_expr_rel e locals :
  R _ (eval_expr call1 env1 locals e) (eval_expr call2 env2 locals e).
Proof.
  revert locals.
  induction e as [| | | | |items IH| | |parts IH| |] using expr_nested_ind; intros locals;
    first [ rewrite !eval_expr_dict; apply R_bind; [by apply eval_items_rel|done]
          | rewrite !eval_expr_joined; apply R_bind; [by apply eval_parts_rel|done]
          | cbn [eval_expr]; repeat rel_step ].
Qed.

Lemma exec_block_rel_with cs locals :
  Forall (λ c, ∀ locals, R _ (exec_cmd call1 env1 locals c) (exec_cmd call2 env2 locals c))
    cs →
  R _ (exec_block call1 env1 locals cs) (exec_block call2 env2 locals cs).
Proof.
  intros Hcs. revert locals.
  induction Hcs as [|c cs Hc _ IH]; intros locals; simpl; repeat rel_step.
  apply IH.
Qed.

Lemma exec_cmd_rel c locals :
  R _ (exec_cmd call1 env1 locals c) (exec_cmd call2 env2 locals c).
Proof.
  revert locals. induction c as [|test body IH| |] using cmd_nested_ind; intros locals;
    first [ rewrite !exec_cmd_if | cbn [exec_cmd] ];
    (apply R_bind; [apply eval_expr_rel|intros v]); repeat rel_step.
  by apply exec_block_rel_with.
Qed.

Lemma exec_block_rel cs locals :
  R _ (exec_block call1 env1 locals cs) (exec_block call2 env2 locals cs).
Proof. apply exec_block_rel_with, Forall_forall. intros c _ ?. apply exec_cmd_rel. Qed.

End relate.

(** An outcome that some fuel gives is the outcome that every larger fuel
    gives. *)
Lemma call_def_mono defs env fuel fuel' f :
  fuel ≤ fuel' → call_def fuel defs env f ⊑ call_def fuel' defs env f.
Proof.
  revert fuel' f. induction fuel as [|fuel IH]; intros fuel' f Hle; [apply defined_as_eundef|].
  destruct fuel' as [|fuel']; [lia|]. rewrite !call_def_S.
  destruct (defs !! f) as [body|]; [|done].
  apply ebind_mono; [|done].
  apply (exec_block_rel (@defined_as)); try done; [apply @ebind_mono|].
  intros g. apply IH. lia.
Qed.

(** What a call returns depends on the variables that it reads only, as
    they are bound at the moment of the read: where those bindings are the
    same, the call reads the same variables and has the same outcome. *)
Lemma call_def_frame defs envs1 envs2 fuel f :
  same_on envs1 envs2 (call_def fuel defs envs1 f) (call_def fuel defs envs2 f).
Proof.
  revert f. induction fuel as [|fuel IH]; intros f; [done|]. rewrite !call_def_S.
  destruct (defs !! f) as [body|]; [|apply same_on_refl].
  apply same_on_bind; [|intros; apply same_on_refl].
  apply (exec_block_rel (λ A, @same_on A envs1 envs2));
    [intros; apply same_on_refl|intros; by apply same_on_bind|done|].
  intros k d n [r t] [= <- <-] Hk. unfold eread.
  by rewrite (getenv_ext (envs1 n) (envs2 n) k d) by apply (Hk 0 k eq_refl).
Qed.

(** ** The bodies evaluate to the functions *)

Lemma db_config_names_inv name f :
  db_config_names !! name = Some f →
  name = "get_db_config" ∧ f = GetDbConfig ∨
  name = "get_db_connection_string" ∧ f = GetDbConnectionString ∨
  name = "validate_db_config" ∧ f = ValidateDbConfig.
Proof.
  unfold db_config_names. rewrite !lookup_insert_Some, lookup_empty. naive_solver.
Qed.

Lemma call_def_enough f fuel : depth_of f ≤ fuel → ∃ fuel', fuel = depth_of f + fuel'.
Proof. exists (fuel - depth_of f). lia. Qed.

Lemma db_config_defs_lookup name :
  db_config_defs !! name =
    match db_config_names !! name with
    | Some GetDbConfig => Some get_db_config_def
    | Some GetDbConnectionString => Some get_db_connection_string_def
    | Some ValidateDbConfig => Some validate_db_config_def
    | None => None
    end.
Proof.
  unfold db_config_defs, db_config_names.
  destruct (decide (name = "validate_db_config")) as [->|]; [done|].
  destruct (decide (name = "get_db_connection_string")) as [->|]; [done|].
  destruct (decide (name = "get_db_config")) as [->|]; [done|].
  by rewrite !lookup_insert_ne, !lookup_empty by done.
Qed.

Lemma db_config_defs_get_db_config :
  db_config_defs !! "get_db_config" = Some get_db_config_def.
Proof. done. Qed.

Lemma db_config_defs_get_db_connection_string :
  db_config_defs !! "get_db_connection_string" = Some get_db_connection_string_def.
Proof. done. Qed.

Lemma db_config_defs_validate_db_config :
  db_config_defs !! "validate_db_config" = Some validate_db_config_def.
Proof. done. Qed.

(** Evaluation of a body, statement by statement. *)
Ltac eval_step :=
  cbn [exec_block exec_cmd eval_expr];
  unfold ebind, eret, eraise, eread, eundef;
  cbn [bind truth negb fst snd app length Nat.add];
  rewrite ?lookup_insert_eq, ?lookup_fmap;
  repeat match goal with
         | H : ?m !! ?k = _ |- context [?m !! ?k] => rewrite H
         | H : truthy ?s = _ |- context [truthy ?s] => rewrite H
         end;
  cbn [fmap option_fmap option_map].

Ltac eval_body := repeat progress eval_step.

(** Case analysis on a subscript of the dict, in the order of the subscripts. *)
Tactic Notation "on_key" constr(d) constr(k) :=
  destruct (d !! k) eqn:?; eval_body; [|by rewrite ?List.app_nil_r].

(** The same for a subscript whose value is tested. *)
Tactic Notation "on_tested_key" constr(d) constr(k) :=
  let v := fresh "v" in
  destruct (d !! k) as [v|] eqn:?; [destruct (truthy v) eqn:?|]; eval_body;
  [|by rewrite ?List.app_nil_r..].

Section bodies.
Context (envs : nat → environ).
Implicit Types (fuel n : nat) (d : gmap string string) (t : list string).

Lemma call_get_db_config fuel n :
  call_def (S fuel) db_config_defs envs "get_db_config" n =
    Some (Return (PDict (PStr <$> get_db_config_at envs n)), db_vars).
Proof.
  rewrite call_def_S, db_config_defs_get_db_config.
  unfold get_db_config_def. eval_body.
  unfold get_db_config_at, dict_literal. cbn [foldl fst snd].
  by rewrite !fmap_insert, fmap_empty.
Qed.

(** The two bodies that begin with [config = get_db_config()], whatever
    dict the call returns and whatever it reads. *)
Section on_dict.
Context (call : string → evalM pval) (d : gmap string string) (t : list string) (n : nat).
Context (Hcall : call "get_db_config" n = Some (Return (PDict (PStr <$> d)), t)).

Lemma exec_get_db_connection_string_def :
  exec_block call envs ∅ get_db_connection_string_def n =
    Some (let! url := connection_string_of_config d in Return (inr (PStr url)), t).
Proof.
  unfold get_db_connection_string_def, connection_string_of_config, subscript.
  eval_step. rewrite Hcall. eval_body.
  on_tested_key d "password".
  on_key d "username". on_key d "host". on_key d "port". on_key d "database".
  rewrite !List.app_nil_r. unfold connection_url. do 3 f_equal.
  by rewrite app_nil_l, <-!(assoc_L String.app).
Qed.

Lemma exec_validate_db_config_def :
  exec_block call envs ∅ validate_db_config_def n =
    Some (let! r := validation_of_config d in Return (inr (PTuple (PBool r.1) (PStr r.2))), t).
Proof.
  unfold validate_db_config_def, validation_of_config, subscript.
  eval_step. rewrite Hcall. eval_body.
  on_tested_key d "password". on_tested_key d "username". on_tested_key d "database".
  by rewrite ?List.app_nil_r.
Qed.

End on_dict.

Lemma call_def_depth name f fuel n :
  db_config_names !! name = Some f →
  call_def (depth_of f + fuel) db_config_defs envs name n =
    reads_all (on_config f (get_db_config_at envs n)).
Proof.
  intros [[-> ->]|[[-> ->]|[-> ->]]]%db_config_names_inv; cbn [depth_of Nat.add].
  - apply call_get_db_config.
  - rewrite call_def_S, db_config_defs_get_db_connection_string.
    unfold ebind. rewrite (exec_get_db_connection_string_def _ _ _ _ (call_get_db_config _ _)).
    simpl. by destruct (connection_string_of_config _).
  - rewrite call_def_S, db_config_defs_validate_db_config.
    unfold ebind. rewrite (exec_validate_db_config_def _ _ _ _ (call_get_db_config _ _)).
    simpl. by destruct (validation_of_config _) as [[]|].
Qed.

(** A call of a name that the module does not bind raises [NameError]. *)
Lemma call_def_unbound name fuel n :
  db_config_names !! name = None →
  call_def (S fuel) db_config_defs envs name n = Some (Raise (NameError name), []).
Proof. intros Hname. by rewrite call_def_S, db_config_defs_lookup, Hname. Qed.

End bodies.

(** With one environment throughout, the dict is that of [get_db_config]
    and the call gives what [call] gives. *)
Lemma call_def_alone name f env fuel n :
  db_config_names !! name = Some f →
  call_def (depth_of f + fuel) db_config_defs (λ _, env) name n = reads_all (call f env).
Proof. intros Hname. by rewrite call_on_config, call_def_depth. Qed.

(** C13: the bodies of the three [def] statements, evaluated as Python
    evaluates them, give what the functions of this development give.  A
    call of a name that the module binds reads the five variables, once
    each, in the order of the dict literal, whether it returns or raises;
    it returns or raises what the function does on the dict whose entry
    number [i] is read from the environment of that moment, so, when no
    one writes the environment meanwhile, what [call] gives.  Fuel for the
    depth of its calls is enough. *)
Theorem call_def_call envs name f fuel n :
  db_config_names !! name = Some f →
  depth_of f ≤ fuel →
  call_def fuel db_config_defs envs name n =
    reads_all (on_config f (get_db_config_at envs n)) ∧
  ∀ env, call_def fuel db_config_defs (λ _, env) name n = reads_all (call f env).
Proof.
  intros Hname [fuel' ->]%call_def_enough. split; [by apply call_def_depth|].
  intros env. by apply call_def_alone.
Qed.

(** The fuel of the evaluator is the depth of the calls and nothing
    else: a call of a function of the module is defined exactly when the
    fuel is at least 1 for [get_db_config] and at least 2 for the two
    functions that call it, whatever the environment holds; no call of
    them runs out of fuel beyond that. *)
Theorem call_def_fuel envs name f fuel n :
  db_config_names !! name = Some f →
  is_Some (call_def fuel db_config_defs envs name n) ↔ depth_of f ≤ fuel.
Proof.
  intros Hname. split.
  - destruct (db_config_names_inv _ _ Hname) as [[-> ->]|[[-> ->]|[-> ->]]];
      destruct fuel as [|[|fuel]]; simpl; try lia; by intros [r [=]].
  - intros [fuel' ->]%call_def_enough. by rewrite call_def_depth.
Qed.

(** ** Examples *)

Lemma call_def_call_witness :
  call_def 2 db_config_defs (λ _, env_example) "get_db_connection_string" 0 =
    reads_all (on_config GetDbConnectionString (get_db_config_at (λ _, env_example) 0)) ∧
  ∀ env, call_def 2 db_config_defs (λ _, env) "get_db_connection_string" 0 =
           reads_all (call GetDbConnectionString env).
Proof.
  apply (call_def_call (λ _, env_example) "get_db_connection_string" GetDbConnectionString 2 0);
    [done|simpl; lia].
Defined.

Lemma call_def_fuel_witness :
  is_Some (call_def 1 db_config_defs (λ _, env_example) "validate_db_config" 0) ↔
  depth_of ValidateDbConfig ≤ 1.
Proof.
  by apply (call_def_fuel (λ _, env_example) "validate_db_config" ValidateDbConfig 1 0).
Defined.
