(* ===== verification/Interleave.v ===== *)
(** * Calls that run while other threads write the environment

    [get_db_config()] evaluates the five entries of its dict literal one
    after the other (lines 25-29), each with a call of [os.getenv].  In a
    process with several threads another thread can set or delete a
    variable between two of these reads; the program takes no lock and no
    copy of the environment.  This file gives the call as a sequence of
    reads interleaved with the writes of other threads, and shows that a
    call that is not disturbed is the call of [Package], that a call
    returns after five steps of its own whatever the others do, that what it
    returns is the result for an environment put together from values the
    variables had during the call, that such a mix can be an environment
    that never existed, that the password that
    [get_db_connection_string] checks is the password it formats, and that
    the reads of this file are those of the body of the function as
    [Bodies] evaluates it.

    After the last read nothing depends on the environment any more, so the
    call is taken to return with that read. *)

From Stdlib Require Import Ascii.
From stdpp Require Import base tactics option strings list gmap fin_maps.
From S2P Require Import Prelude Runs PyString Environ DbConfig ConnString Validate Package Bodies.

#[local] Open Scope py_scope.

(** ** Definitions *)

(** A call in progress: the function called, the entries of the dict literal
    that are still to be evaluated, and the entries evaluated so far. *)
Record thread : Type := mk_thread {
  fn : func;
  pending : list (string * string * string);
  entries : list (string * string);
}.

(** The call when it starts. *)
Definition start (f : func) : thread := mk_thread f settings_table [].

(** The next entry of the dict literal: [os.getenv] reads the environment as
    it is now; with the last entry the dict is complete and the rest of the
    function runs on it. *)
Definition read_next (env : environ) (t : thread) : option (thread * option (result value)) :=
  match pending t with
  | [] => None
  | (key, var, default) :: rest =>
      let entries' := entries t ++ [(key, getenv env var default)] in
      Some (mk_thread (fn t) rest entries',
            match rest with
            | [] => Some (on_config (fn t) (dict_literal entries'))
            | _ :: _ => None
            end)
  end.

(** Who moves: the calling thread, or another thread that sets ([Some v]) or
    deletes ([None]) a variable. *)
Inductive move : Type :=
| Mine
| Theirs (var : string) (v : option string).

Definition write (var : string) (v : option string) (env : environ) : environ :=
  match v with
  | Some s => <[var := s]> env
  | None => delete var env
  end.

(** One step of the process: the environment and the call. *)
Definition tstep (st : environ * thread) (m : move) :
    option ((environ * thread) * option (result value)) :=
  match m with
  | Mine => '(t, o) ← read_next st.1 st.2; Some ((st.1, t), o)
  | Theirs var v => Some ((write var v st.1, st.2), None)
  end.

Definition tsteps :
    environ * thread → list move → list (result value) → environ * thread → Prop :=
  steps_of tstep.

Definition trun :
    environ * thread → list move → option ((environ * thread) * list (result value)) :=
  run_of tstep.

(** The number of steps of the calling thread in a schedule. *)
Fixpoint mines (sched : list move) : nat :=
  match sched with
  | [] => 0
  | Mine :: sched => S (mines sched)
  | Theirs _ _ :: sched => mines sched
  end.

(** The moves that write one of the five variables. *)
Definition disturbs (m : move) : bool :=
  match m with
  | Mine => false
  | Theirs var _ => bool_decide (var ∈ db_vars)
  end.

(** The environments that a schedule goes through, the one at its end, and
    the ones in which the calling thread moves. *)
Fixpoint visited (env : environ) (sched : list move) : list environ :=
  match sched with
  | [] => [env]
  | Mine :: sched => visited env sched
  | Theirs var v :: sched => env :: visited (write var v env) sched
  end.

Fixpoint final (env : environ) (sched : list move) : environ :=
  match sched with
  | [] => env
  | Mine :: sched => final env sched
  | Theirs var v :: sched => final (write var v env) sched
  end.

Fixpoint read_in (env : environ) (sched : list move) : list environ :=
  match sched with
  | [] => []
  | Mine :: sched => env :: read_in env sched
  | Theirs var v :: sched => read_in (write var v env) sched
  end.

(** The entries read in the environments [es], one per entry. *)
Definition read_entries (es : list environ) : list (string * string) :=
  zip_with (λ row e, (row.1.1, getenv e row.1.2 row.2)) settings_table es.

(** The call after its reads in the environments [es]. *)
Definition thread_at (f : func) (es : list environ) : thread :=
  mk_thread f (drop (length es) settings_table) (read_entries es).

(** The environment put together from the reads: each of the five
    variables is bound as in the environment in which it was read. *)
Definition mix (es : list environ) : environ :=
  foldr (λ ve acc, partial_alter (λ _, ve.2 !! ve.1) ve.1 acc) ∅ (zip db_vars es).

(** A process that changes host and port while a call is under way. *)
Definition env_before : environ :=
  dict_literal [("DB_PASSWORD", "pw"); ("DB_HOST", "old-host"); ("DB_PORT", "1111")].

(** Another thread moves the server to a new host and port when the call
    has read the user, the password and the host, and has the port and the
    database still to read. *)
Definition host_port_change (host port : string) : list move :=
  [ Mine; Mine; Mine; Theirs "DB_HOST" (Some host); Theirs "DB_PORT" (Some port); Mine; Mine ].

Definition torn_schedule : list move := host_port_change "new-host" "2222".

(** The environment that the read number [i] of the call finds under a
    schedule. *)
Definition env_at (env : environ) (sched : list move) (i : nat) : environ :=
  default (final env sched) (read_in env sched !! i).

(** A schedule in which the other thread writes variables that the package
    does not read. *)
Definition quiet_schedule : list move :=
  [ Mine; Theirs "PATH" (Some "/usr/bin"); Mine; Mine; Theirs "HOME" None; Mine; Mine ].

Definition torn_url : string := "postgresql://postgres:pw@old-host:2222/customer_behavior".

#[export] Instance move_eq_dec : EqDecision move.
Proof. solve_decision. Defined.

#[export] Instance thread_eq_dec : EqDecision thread.
Proof. solve_decision. Defined.

(** Case analysis on the number of reads made, at most five. *)
Ltac each_read es :=
  destruct es as [|? [|? [|? [|? [|? [|? es]]]]]]; simpl in *; try lia.

(** ** The reads *)

Section reads.
Implicit Types (f : func) (env e : environ) (es : list environ) (sched : list move).

Lemma mix_lookup es :
  length es = 5 → Forall2 (λ var e, mix es !! var = e !! var) db_vars es.
Proof.
  intros Hes. each_read es. unfold mix. simpl.
  repeat constructor; simpl;
    by rewrite ?lookup_partial_alter_ne, ?lookup_partial_alter_eq by done.
Qed.

Lemma read_entries_mix es :
  length es = 5 → dict_literal (read_entries es) = get_db_config (mix es).
Proof.
  intros Hes. pose proof (mix_lookup es Hes) as Hmix. each_read es.
  unfold db_vars, settings_table in Hmix. simpl in Hmix.
  repeat match goal with
         | H : Forall2 _ (_ :: _) _ |- _ => apply Forall2_cons in H as [? H]
         end.
  unfold get_db_config, read_entries. simpl.
  repeat match goal with
         | H : mix _ !! ?var = _ |- _ => rewrite (getenv_ext _ _ var _ H); clear H
         end.
  done.
Qed.

Lemma read_next_at f es e :
  length es < 5 →
  read_next e (thread_at f es) =
    Some (thread_at f (es ++ [e]),
          if decide (length es = 4) then Some (call f (mix (es ++ [e]))) else None).
Proof.
  intros Hes. each_read es; try done.
  rewrite call_on_config, <-read_entries_mix by done. done.
Qed.

Lemma read_next_done f es e : 5 ≤ length es → read_next e (thread_at f es) = None.
Proof. intros Hes. unfold read_next, thread_at. simpl. by rewrite drop_ge. Qed.

End reads.

(** ** Schedules *)

Section schedules.
Implicit Types (f : func) (env e : environ) (es : list environ) (sched : list move).

Lemma visited_head env sched : env ∈ visited env sched.
Proof.
  revert env. induction sched as [|[|var v] sched IH]; intros env; simpl;
    [apply list_elem_of_here|apply IH|apply list_elem_of_here].
Qed.

Lemma read_in_visited env sched e : e ∈ read_in env sched → e ∈ visited env sched.
Proof.
  revert env. induction sched as [|[|var v] sched IH]; intros env; simpl.
  - by intros ?%elem_of_nil.
  - intros [->|He]%elem_of_cons; [apply visited_head|by apply IH].
  - intros He. apply list_elem_of_further. by apply IH.
Qed.

Lemma read_in_length env sched : length (read_in env sched) = mines sched.
Proof.
  revert env. induction sched as [|[|var v] sched IH]; intros env; simpl; by rewrite ?IH.
Qed.

Lemma read_in_nil env sched : mines sched = 0 → read_in env sched = [].
Proof. rewrite <-(read_in_length env). apply nil_length_inv. Qed.

Lemma trun_at f es env sched :
  length es ≤ 5 →
  trun (env, thread_at f es) sched =
    if decide (length es + mines sched ≤ 5)
    then Some ((final env sched, thread_at f (es ++ read_in env sched)),
               if decide (length es < 5 ∧ length es + mines sched = 5)
               then [call f (mix (es ++ read_in env sched))] else [])
    else None.
Proof.
  revert env es. induction sched as [|[|var v] sched IH]; intros env es Hes; simpl.
  - rewrite Nat.add_0_r, List.app_nil_r, decide_True, decide_False by lia. done.
  - destruct (decide (length es < 5)) as [Hlt|Hge].
    + unfold trun. simpl. rewrite read_next_at by done. simpl. fold trun.
      rewrite IH by (rewrite List.length_app; simpl; lia).
      rewrite List.length_app, <-(assoc_L app). simpl.
      repeat case_decide; simpl; try lia; try done.
      by rewrite (read_in_nil env sched) by lia.
    + unfold trun. simpl. rewrite read_next_done by lia. simpl.
      by rewrite decide_False by lia.
  - unfold trun. simpl. fold trun. rewrite IH by done. by repeat case_decide.
Qed.

Lemma trun_start f env sched :
  trun (env, start f) sched =
    if decide (mines sched ≤ 5)
    then Some ((final env sched, thread_at f (read_in env sched)),
               if decide (mines sched = 5) then [call f (mix (read_in env sched))] else [])
    else None.
Proof.
  change (start f) with (thread_at f []). rewrite trun_at by (simpl; lia). simpl.
  repeat case_decide; done || lia.
Qed.

Lemma tsteps_result f env sched rs st r :
  tsteps (env, start f) sched rs st → r ∈ rs →
  mines sched = 5 ∧ r = call f (mix (read_in env sched)).
Proof.
  intros Hrun%run_complete. fold trun in Hrun. rewrite trun_start in Hrun.
  repeat case_decide; simplify_eq; [|by intros ?%elem_of_nil].
  by intros ->%list_elem_of_singleton.
Qed.

Lemma get_db_config_at_mix envs n :
  get_db_config_at envs n = get_db_config (mix (envs <$> seq n 5)).
Proof. by rewrite <-read_entries_mix. Qed.

Lemma env_at_read_in env sched :
  length (read_in env sched) = 5 → env_at env sched <$> seq 0 5 = read_in env sched.
Proof.
  unfold env_at. generalize (final env sched) (read_in env sched). intros e es Hes.
  by each_read es.
Qed.

Lemma write_agree var v env : var ∉ db_vars → write var v env ≡db env.
Proof. destruct v; [apply env_agree_insert|apply env_agree_delete]. Qed.

Lemma read_in_agree env sched e :
  Forall (λ m, disturbs m = false) sched → e ∈ read_in env sched → e ≡db env.
Proof.
  revert env. induction sched as [|[|var v] sched IH]; intros env; simpl.
  - by intros _ ?%elem_of_nil.
  - intros [_ Hsched]%Forall_cons [->|He]%elem_of_cons; [done|by apply IH].
  - intros [Hvar%bool_decide_eq_false Hsched]%Forall_cons He.
    rewrite (IH _ Hsched He). by apply write_agree.
Qed.

Lemma mix_agree es env : length es = 5 → Forall (λ e, e ≡db env) es → mix es ≡db env.
Proof.
  intros Hmix%mix_lookup%Forall2_elem_of_r Hagree. apply env_agree_lookup. intros var Hvar.
  rewrite Forall_forall in Hmix. rewrite Forall_forall in Hagree. destruct (Hmix var Hvar) as (e & He & ->).
  by apply env_agree_lookup; [apply Hagree|].
Qed.

(** The password of the reads is the one that the second read found. *)
Lemma mix_password es e :
  length es = 5 →
  getenv (mix es) "DB_PASSWORD" "" = getenv (default e (es !! 1)) "DB_PASSWORD" "".
Proof.
  intros Hes. each_read es. apply getenv_ext. unfold mix. simpl.
  by rewrite lookup_partial_alter_ne, lookup_partial_alter_eq.
Qed.

(** The settings after a write of the host or of the port. *)
Lemma retrieve_settings_host env h :
  retrieve_settings (<["DB_HOST" := h]> env) =
    let s := retrieve_settings env in
    mk_settings (username s) (password s) h (port s) (database s).
Proof. unfold retrieve_settings. by rewrite getenv_insert, !getenv_insert_ne by done. Qed.

Lemma retrieve_settings_port env n :
  retrieve_settings (<["DB_PORT" := n]> env) =
    let s := retrieve_settings env in
    mk_settings (username s) (password s) (host s) n (database s).
Proof. unfold retrieve_settings. by rewrite getenv_insert, !getenv_insert_ne by done. Qed.

Lemma call_connection_string env :
  getenv env "DB_PASSWORD" "" ≠ "" →
  call GetDbConnectionString env = Return (VStr (format_settings (retrieve_settings env))).
Proof. intros Hpw%truthy_true. simpl. by rewrite get_db_connection_string_unfold, Hpw. Qed.

(** Two environments with different settings, none with a separator in a
    field, get different URLs. *)
Lemma call_connection_string_differs env1 env2 :
  password (retrieve_settings env1) ≠ "" → password (retrieve_settings env2) ≠ "" →
  delimiter_free (retrieve_settings env1) → delimiter_free (retrieve_settings env2) →
  retrieve_settings env1 ≠ retrieve_settings env2 →
  call GetDbConnectionString env1 ≠ call GetDbConnectionString env2.
Proof.
  intros Hpw1 Hpw2 Hfree1 Hfree2 Hne. rewrite !call_connection_string by done.
  intros Heq. apply Hne, format_settings_inj; [done..|congruence].
Qed.

(** The reads of the call when host and port change under it: all but the
    port are as in the environment in which the call began. *)
Lemma mix_host_port_change env host port :
  mix (read_in env (host_port_change host port)) ≡db <["DB_PORT" := port]> env.
Proof.
  unfold env_agree, db_vars, mix. simpl.
  repeat apply Forall_cons_2; [..|apply Forall_nil_2];
    rewrite ?lookup_partial_alter_ne, ?lookup_partial_alter_eq by done; by simplify_map_eq.
Qed.

(** A call is answered after exactly five steps of its own, however the
    steps of other threads are placed between them: a schedule runs a call
    of any of the three functions to its one result when it holds five
    steps of the call, and to no result or not at all when it holds fewer
    or more. *)
Theorem trun_terminates f env sched :
  mines sched = 5 ↔ ∃ st r, trun (env, start f) sched = Some (st, [r]).
Proof.
  rewrite trun_start. split; [intros ->; simpl; eauto|].
  intros (st & r & Hrun). by repeat case_decide.
Qed.

(** C20: the steps of a call in this file are those of the body of the
    function: under a schedule that lets the call finish, the result of the
    run is what the evaluator of [Bodies] gives for the [def] statement of
    the function, when each read finds the environment that the schedule
    has produced by then; the call reads the five variables, one per step. *)
Theorem trun_call_def name f env sched :
  db_config_names !! name = Some f →
  mines sched = 5 →
  ∃ st r, trun (env, start f) sched = Some (st, [r]) ∧
          call_def (depth_of f) db_config_defs (env_at env sched) name 0 = reads_all r.
Proof.
  intros Hname Hmines. rewrite trun_start, Hmines. simpl. do 2 eexists. split; [done|].
  rewrite <-(Nat.add_0_r (depth_of f)), call_def_depth, get_db_config_at_mix by done.
  by rewrite env_at_read_in, call_on_config by by rewrite read_in_length.
Qed.

(** C21: writes of other threads to variables that [get_db_config] does not
    read cannot be observed by a call: under every schedule whose writes
    all go to other variables, the call returns what the function returns
    when it runs alone in the environment in which the call began. *)
Theorem trun_undisturbed f env sched :
  mines sched = 5 →
  Forall (λ m, disturbs m = false) sched →
  ∃ st, trun (env, start f) sched = Some (st, [call f env]).
Proof.
  intros Hmines Hsched. rewrite trun_start, Hmines. simpl. eexists. do 3 f_equal.
  apply call_proper, mix_agree; [by rewrite read_in_length|].
  apply Forall_forall. intros e He. by eapply read_in_agree.
Qed.

(** C18: what a call returns under a schedule is what the function returns
    in some environment [snap] in which each of the five variables is bound
    as in one of the environments that the process went through during the
    call; no variable has a value that it never had.  The environment of
    each variable is the one that the call found at the read of that
    variable: the five reads, in the order of the dict literal. *)
Theorem tsteps_snapshot f env sched rs st r :
  tsteps (env, start f) sched rs st → r ∈ rs →
  ∃ snap, r = call f snap ∧
          Forall (λ var, ∃ e, e ∈ visited env sched ∧ snap !! var = e !! var) db_vars ∧
          Forall2 (λ var e, snap !! var = e !! var) db_vars (read_in env sched).
Proof.
  intros Hsteps Hr. destruct (tsteps_result _ _ _ _ _ _ Hsteps Hr) as [Hmines ->].
  pose proof (mix_lookup (read_in env sched)) as Hmix.
  rewrite read_in_length in Hmix. specialize (Hmix Hmines).
  eexists. split_and!; [done| |done]. apply Forall2_elem_of_r in Hmix.
  eapply Forall_impl; [done|].
  simpl. intros var (e & He & Hvar). eauto using read_in_visited.
Qed.

(** C19: the environment [snap] of a call need not be one the process was
    ever in.  In every environment that sets a password, when another thread
    moves the server to a different host and a different port after the call
    of [get_db_connection_string] has read the host and before it reads the
    port, the call returns the URL with the old host and the new port, and
    the function returns that URL in none of the environments that the
    process went through.  The values are taken without the separators that
    would make two URLs of different settings equal. *)
Theorem torn_read env host port :
  let url := connection_url (getenv env "DB_USERNAME" "postgres") (getenv env "DB_PASSWORD" "")
               (getenv env "DB_HOST" "localhost") port (getenv env "DB_NAME" "customer_behavior") in
  getenv env "DB_PASSWORD" "" ≠ "" →
  delimiter_free (retrieve_settings env) →
  ":"%char ∉ str_chars host → "/"%char ∉ str_chars port →
  host ≠ getenv env "DB_HOST" "localhost" → port ≠ getenv env "DB_PORT" "5432" →
  ∃ st, trun (env, start GetDbConnectionString) (host_port_change host port) =
          Some (st, [Return (VStr url)]) ∧
        Forall (λ e, call GetDbConnectionString e ≠ Return (VStr url))
               (visited env (host_port_change host port)).
Proof.
  intros url Hpw Hfree Hhost Hport Hh Hn.
  assert (call GetDbConnectionString (<["DB_PORT" := port]> env) = Return (VStr url)) as <-.
  { rewrite call_connection_string, retrieve_settings_port by by rewrite getenv_insert_ne. done. }
  destruct Hfree as (Hu & Hp & Hh' & Hn'). eexists. split.
  - rewrite trun_start, !decide_True by done. do 3 f_equal.
    apply (call_proper GetDbConnectionString), mix_host_port_change.
  - simpl. repeat apply Forall_cons_2; [..|apply Forall_nil_2];
      apply call_connection_string_differs;
      rewrite ?retrieve_settings_port, ?retrieve_settings_host;
      unfold delimiter_free, retrieve_settings in *; simpl in *; done || congruence.
Qed.

(** C33: the password that [get_db_connection_string] checks is the password
    that it puts in the URL, under every schedule: a URL that an
    interleaved call returns is the format of five settings whose password
    is not empty.  The settings are those that the call has read, and the
    password is the value that the second read, the one of [DB_PASSWORD],
    found in the environment of its moment. *)
Theorem url_password_checked env sched rs st url :
  tsteps (env, start GetDbConnectionString) sched rs st →
  Return (VStr url) ∈ rs →
  ∃ s, url = format_settings s ∧ password s ≠ "" ∧
       s = retrieve_settings (mix (read_in env sched)) ∧
       password s = getenv (env_at env sched 1) "DB_PASSWORD" "".
Proof.
  intros Hsteps Hr. destruct (tsteps_result _ _ _ _ _ _ Hsteps Hr) as [Hmines Hurl].
  unfold call in Hurl.
  destruct (get_db_connection_string _) as [url'|] eqn:Hcall; simplify_eq/=.
  apply returned_url in Hcall as [-> Hpw]. eexists (retrieve_settings _).
  split_and!; [done..|]. apply mix_password. by rewrite read_in_length.
Qed.

End schedules.

(** ** The example schedules *)

Lemma trun_undisturbed_witness :
  ∃ st, trun (env_before, start GetDbConnectionString) quiet_schedule =
          Some (st, [call GetDbConnectionString env_before]).
Proof.
  apply (trun_undisturbed GetDbConnectionString env_before quiet_schedule); [done|].
  by repeat constructor.
Defined.

Lemma torn_read_witness :
  ∃ st, trun (env_before, start GetDbConnectionString) (host_port_change "new-host" "2222") =
          Some (st, [Return (VStr (connection_url
                       (getenv env_before "DB_USERNAME" "postgres")
                       (getenv env_before "DB_PASSWORD" "")
                       (getenv env_before "DB_HOST" "localhost") "2222"
                       (getenv env_before "DB_NAME" "customer_behavior")))]) ∧
        Forall (λ e, call GetDbConnectionString e ≠
                     Return (VStr (connection_url
                       (getenv env_before "DB_USERNAME" "postgres")
                       (getenv env_before "DB_PASSWORD" "")
                       (getenv env_before "DB_HOST" "localhost") "2222"
                       (getenv env_before "DB_NAME" "customer_behavior"))))
               (visited env_before (host_port_change "new-host" "2222")).
Proof. apply (torn_read env_before "new-host" "2222"); compute_done. Defined.

(** The URL of the example is the one with the old host and the new port. *)
Example torn_schedule_run :
  trun (env_before, start GetDbConnectionString) torn_schedule =
    Some ((final env_before torn_schedule,
           thread_at GetDbConnectionString (read_in env_before torn_schedule)),
          [Return (VStr torn_url)]).
Proof. vm_compute; reflexivity. Qed.

Lemma tsteps_snapshot_witness :
  ∃ snap, Return (VStr torn_url) = call GetDbConnectionString snap ∧
          Forall (λ var, ∃ e, e ∈ visited env_before torn_schedule ∧ snap !! var = e !! var)
                 db_vars ∧
          Forall2 (λ var e, snap !! var = e !! var) db_vars (read_in env_before torn_schedule).
Proof.
  apply (tsteps_snapshot GetDbConnectionString env_before torn_schedule
           [Return (VStr torn_url)]
           (final env_before torn_schedule,
            thread_at GetDbConnectionString (read_in env_before torn_schedule))).
  - apply run_sound. vm_compute; reflexivity.
  - apply list_elem_of_here.
Defined.

Lemma url_password_checked_witness :
  ∃ s, torn_url = format_settings s ∧ password s ≠ "" ∧
       s = retrieve_settings (mix (read_in env_before torn_schedule)) ∧
       password s = getenv (env_at env_before torn_schedule 1) "DB_PASSWORD" "".
Proof.
  apply (url_password_checked env_before torn_schedule [Return (VStr torn_url)]
           (final env_before torn_schedule,
            thread_at GetDbConnectionString (read_in env_before torn_schedule))).
  - apply run_sound. vm_compute; reflexivity.
  - apply list_elem_of_here.
Defined.

Lemma trun_call_def_witness :
  ∃ st r, trun (env_before, start GetDbConnectionString) torn_schedule = Some (st, [r]) ∧
          call_def (depth_of GetDbConnectionString) db_config_defs
            (env_at env_before torn_schedule) "get_db_connection_string" 0 = reads_all r.
Proof.
  by apply (trun_call_def "get_db_connection_string" GetDbConnectionString
              env_before torn_schedule).
Defined.
