(* ===== verification/Progress.v ===== *)
(** * Progress of a program that uses the package

    Which statements of an importing program the process model of
    [Package] covers, and what the usage that the docstring of
    [config/db_config.py] documents gives.  [step_fun] is a partial
    function: a call before any import, a call of a name the package does
    not bind and an import of another module are outside that model (Python
    raises [NameError] for the first two and runs the third; [Caller] gives
    these statements their exceptions).  This file says where [step_fun] is
    defined, and shows that once the package is loaded every exported name
    stays callable. *)

From stdpp Require Import base tactics option strings list gmap fin_maps.
From S2P Require Import Prelude Runs PyString Environ DbConfig ConnString Validate Package.

#[local] Open Scope py_scope.

(** ** Definitions *)

(** The modules whose import the model covers. *)
Definition importable (m : string) : bool :=
  bool_decide (m = "config" ∨ m = "config.db_config").

Definition is_import (a : action) : bool :=
  match a with
  | Import _ => true
  | Call _ | Setenv _ _ | Unsetenv _ => false
  end.

Definition is_call (a : action) : bool :=
  match a with
  | Call _ => true
  | Import _ | Setenv _ _ | Unsetenv _ => false
  end.

(** Whether the package is loaded in a process. *)
Definition loaded (p : process) : bool := bool_decide ("config" ∈ sys_modules p).

(** The statements that the process model of [Package] covers. *)
Definition enabled (p : process) (a : action) : bool :=
  match a with
  | Import m => importable m
  | Call name => loaded p && bool_decide (name ∈ config_all)
  | Setenv _ _ | Unsetenv _ => true
  end.

(** The usage the docstring of [db_config.py] gives:
    [from config.db_config import get_db_connection_string] and then
    [connection_string = get_db_connection_string()]. *)
Definition documented_usage : list action :=
  [Import "config.db_config"; Call "get_db_connection_string"].

(** ** Enabled statements *)

Lemma config_names_is_Some name : is_Some (config_names !! name) ↔ name ∈ config_all.
Proof.
  rewrite config_names_eq, <-elem_of_dom. unfold db_config_names, config_all.
  rewrite !dom_insert_L, dom_empty_L. set_solver.
Qed.

Section progress.
Context `{EnvLoader}.
Implicit Types (p : process) (a : action) (acts : list action).

Lemma import_module_is_Some m p : is_Some (import_module m p) ↔ importable m = true.
Proof.
  unfold import_module, importable. rewrite bool_decide_eq_true.
  repeat case_decide; naive_solver.
Qed.

(** [step_fun] is defined exactly where [enabled] says so: on writes of the
    environment always, on an import when the module is one of the package,
    on a call when the package is loaded and the name is one of
    [__all__]. *)
Theorem step_fun_enabled p a : is_Some (step_fun p a) ↔ enabled p a = true.
Proof.
  destruct a as [m|name|var v|var]; simpl; [| |by split; eauto..].
  - rewrite <-(import_module_is_Some m p). unfold is_Some.
    destruct (import_module m p); naive_solver.
  - unfold loaded. rewrite andb_true_iff, !bool_decide_eq_true, <-config_names_is_Some.
    unfold is_Some.
    case_decide; [|naive_solver]. destruct (config_names !! name); naive_solver.
Qed.

(** ** What a step does to the loaded modules *)

Lemma step_fun_loaded p a p' o :
  modules_closed p → step_fun p a = Some (p', o) →
  loaded p' = is_import a || loaded p.
Proof.
  intros Hp. destruct a as [m|name|var v|var]; simpl.
  - destruct (import_module m p) as [p1|] eqn:Hm; simpl; [|done]. intros [= <- _].
    apply import_module_config in Hm as ->; [|done].
    apply bool_decide_eq_true, import_config_loaded.
  - by intros (-> & _)%step_fun_call.
  - by intros [= <- _].
  - by intros [= <- _].
Qed.

Lemma steps_loaded p acts rs p' :
  modules_closed p → steps p acts rs p' →
  loaded p' = existsb is_import acts || loaded p.
Proof.
  intros Hp Hsteps. induction Hsteps as [|p a o p1 acts rs p2 Ha _ IH]; [done|].
  rewrite IH by eauto using step_fun_closed.
  rewrite (step_fun_loaded _ _ _ _ Hp Ha). simpl.
  by destruct (is_import a), (existsb _ _).
Qed.

(** C37: once the package has been imported, every name of [__all__] can be
    called and the call returns: a run that holds an import can be continued
    by a call of any exported name, which is answered with the result of the
    function on the environment of that moment and leaves the process as it
    is. *)
Theorem import_enables_calls p acts rs p' name :
  modules_closed p →
  steps p acts rs p' →
  existsb is_import acts = true →
  name ∈ config_all →
  ∃ f, config_names !! name = Some f ∧
       steps p (acts ++ [Call name]) (rs ++ [call f (os_environ p')]) p'.
Proof.
  intros Hp Hsteps Himp [f Hf]%config_names_is_Some. exists f. split; [done|].
  eapply steps_app; [done|].
  apply (steps_one step_fun p' (Call name) (Some (call f (os_environ p')))).
  apply (steps_loaded _ _ _ _ Hp) in Hsteps. rewrite Himp in Hsteps.
  apply bool_decide_eq_true in Hsteps. simpl. by rewrite decide_True, Hf.
Qed.

(** ** The documented usage *)

Lemma import_config_fresh env :
  import_config (fresh_process env) =
    mk_process (load_dotenv env) {["config.db_config"; "config"]}.
Proof.
  unfold import_config, import_db_config, fresh_process. simpl.
  rewrite !decide_False by set_solver. unfold exec_db_config, set_environ. simpl.
  by f_equal.
Qed.

Lemma import_db_config_fresh env :
  import_module "config.db_config" (fresh_process env) =
    Some (mk_process (load_dotenv env) {["config.db_config"; "config"]}).
Proof.
  unfold import_module. rewrite decide_False, decide_True by done.
  rewrite import_db_config_closed_id, import_config_fresh; [done|..].
  - apply import_config_closed. unfold modules_closed. set_solver.
  - apply import_config_loaded.
Qed.

(** The usage given in the docstring of [db_config.py], run in a process
    that has not loaded the package: the import loads the package and its
    module and runs [load_dotenv()], and the call returns what
    [get_db_connection_string] gives for the environment that
    [load_dotenv()] left. *)
Theorem documented_usage_run env :
  run (fresh_process env) documented_usage =
    Some (mk_process (load_dotenv env) {["config.db_config"; "config"]},
          [call GetDbConnectionString (load_dotenv env)]).
Proof.
  unfold documented_usage, run. cbn [run_of step_fun].
  rewrite import_db_config_fresh. simpl.
  rewrite decide_True by set_solver. by rewrite config_names_eq.
Qed.

End progress.

Lemma import_enables_calls_witness :
  ∃ f, config_names !! "validate_db_config" = Some f ∧
       steps (H:=example_loader) example_process
         (example_actions ++ [Call "validate_db_config"])
         (example_results ++ [call f (os_environ example_final)]) example_final.
Proof.
  apply (import_enables_calls (H:=example_loader)).
  - compute_done.
  - apply example_run.
  - done.
  - set_solver.
Defined.
