(* ===== verification/Install.v ===== *)
(** * The modules that [db_config.py] imports

    The module starts with [import os] and
    [from dotenv import load_dotenv].  [os] belongs to the standard library;
    [dotenv] is python-dotenv, a distribution that may not be installed.
    [Package] describes a process in which both imports succeed.  This file
    describes the import with its failure: an import statement for a module
    that cannot be found raises [ModuleNotFoundError], the module body stops
    there, the exception passes through [config/__init__.py], and neither
    the module nor the package stays in [sys.modules].  It shows that the
    process of [Package] is the case in which the two modules are installed,
    and that without python-dotenv no function of the package can ever be
    called. *)

From stdpp Require Import base tactics option strings list gmap fin_maps.
From S2P Require Import Prelude Runs PyString Environ DbConfig ConnString Validate Package Progress.

#[local] Open Scope py_scope.

(** ** Definitions *)

(** An import statement for a module outside the package: it succeeds when
    the module can be found. *)
Definition find_module (installed : gset string) (m : string) : result () :=
  if decide (m ∈ installed) then Return () else Raise (ModuleNotFoundError m).

Section install.
Context `{EnvLoader} (installed : gset string).

(** The body of [db_config.py]: the two imports, then [load_dotenv()]. *)
Definition exec_db_config_checked (p : process) : result process :=
  let! _ := find_module installed "os" in
  let! _ := find_module installed "dotenv" in
  Return (exec_db_config p).

(** [import config.db_config] when the package is being loaded. *)
Definition import_db_config_checked (p : process) : result process :=
  if decide ("config.db_config" ∈ sys_modules p) then Return p
  else exec_db_config_checked (mark_loaded "config.db_config" p).

(** [import config]: an exception in the body of the module passes through
    the body of [__init__.py]. *)
Definition import_config_checked (p : process) : result process :=
  if decide ("config" ∈ sys_modules p) then Return p
  else import_db_config_checked (mark_loaded "config" p).

(** An import statement of the importing program. *)
Definition import_module_checked (m : string) (p : process) : option (result process) :=
  if decide (m = "config") then Some (import_config_checked p)
  else if decide (m = "config.db_config")
       then Some (let! p' := import_config_checked p in import_db_config_checked p')
       else None.

(** One step: an import that fails gives its exception to the program and
    leaves [sys.modules] as it was before the statement. *)
Definition istep_fun (p : process) (a : action) : option (process * option (result value)) :=
  match a with
  | Import m =>
      r ← import_module_checked m p;
      Some (match r with
            | Return p' => (p', None)
            | Raise e => (p, Some (Raise e))
            end)
  | Call _ | Setenv _ _ | Unsetenv _ => step_fun p a
  end.

Definition isteps : process → list action → list (result value) → process → Prop :=
  steps_of istep_fun.

Definition irun : process → list action → option (process * list (result value)) :=
  run_of istep_fun.

End install.

(** A program that tries the import twice, and what it gets without
    python-dotenv. *)
Definition missing_actions : list action :=
  [Import "config"; Setenv "DB_PASSWORD" "secret"; Import "config.db_config"].

Definition missing_results : list (result value) :=
  [Raise (ModuleNotFoundError "dotenv"); Raise (ModuleNotFoundError "dotenv")].

Definition missing_final : process :=
  mk_process (<["DB_PASSWORD" := "secret"]> (os_environ example_process)) ∅.

(** ** Imports *)

Section install_facts.
Context `{EnvLoader} (installed : gset string).
Implicit Types (p : process) (a : action) (acts : list action) (m : string).

Lemma find_module_installed m : m ∈ installed → find_module installed m = Return ().
Proof. intros. unfold find_module. by rewrite decide_True. Qed.

Lemma find_module_missing m :
  m ∉ installed → find_module installed m = Raise (ModuleNotFoundError m).
Proof. intros. unfold find_module. by rewrite decide_False. Qed.

(** A checked import does what the import of [Package] does, or raises
    [ModuleNotFoundError]. *)
Lemma import_db_config_checked_inv p :
  import_db_config_checked installed p = Return (import_db_config p) ∨
  ∃ name, import_db_config_checked installed p = Raise (ModuleNotFoundError name).
Proof.
  unfold import_db_config_checked, import_db_config. case_decide; [by left|].
  unfold exec_db_config_checked, find_module. repeat case_decide; simpl; eauto.
Qed.

Lemma import_config_checked_inv p :
  import_config_checked installed p = Return (import_config p) ∨
  ∃ name, import_config_checked installed p = Raise (ModuleNotFoundError name).
Proof.
  unfold import_config_checked, import_config. case_decide; [by left|].
  apply import_db_config_checked_inv.
Qed.

Lemma import_module_checked_inv m p r :
  import_module_checked installed m p = Some r →
  (∃ p', import_module m p = Some p' ∧ r = Return p') ∨
  ∃ name, r = Raise (ModuleNotFoundError name).
Proof.
  unfold import_module_checked, import_module. repeat case_decide; intros [= <-].
  - destruct (import_config_checked_inv p) as [->|[name ->]]; eauto.
  - destruct (import_config_checked_inv p) as [->|[name ->]]; [|by eauto].
    rewrite bind_Return_l.
    destruct (import_db_config_checked_inv (import_config p)) as [->|[name ->]]; eauto.
Qed.

Section installed.
Hypothesis Hos : "os" ∈ installed.
Hypothesis Hdotenv : "dotenv" ∈ installed.

Lemma exec_db_config_checked_installed p :
  exec_db_config_checked installed p = Return (exec_db_config p).
Proof. unfold exec_db_config_checked. by rewrite !find_module_installed. Qed.

Lemma import_db_config_checked_installed p :
  import_db_config_checked installed p = Return (import_db_config p).
Proof.
  unfold import_db_config_checked, import_db_config.
  case_decide; [done|apply exec_db_config_checked_installed].
Qed.

Lemma import_config_checked_installed p :
  import_config_checked installed p = Return (import_config p).
Proof.
  unfold import_config_checked, import_config.
  case_decide; [done|apply import_db_config_checked_installed].
Qed.

Lemma import_module_checked_installed m p :
  import_module_checked installed m p = Return <$> import_module m p.
Proof.
  unfold import_module_checked, import_module. repeat case_decide; simpl; [..|done].
  - by rewrite import_config_checked_installed.
  - by rewrite import_config_checked_installed, bind_Return_l,
      import_db_config_checked_installed.
Qed.

Lemma istep_fun_installed p a : istep_fun installed p a = step_fun p a.
Proof.
  destruct a as [m|name|var v|var]; [|done..]. simpl.
  rewrite import_module_checked_installed. by destruct (import_module m p).
Qed.

End installed.

Section missing.
Hypothesis Hos : "os" ∈ installed.
Hypothesis Hdotenv : "dotenv" ∉ installed.

Lemma exec_db_config_checked_missing p :
  exec_db_config_checked installed p = Raise (ModuleNotFoundError "dotenv").
Proof.
  unfold exec_db_config_checked.
  by rewrite find_module_installed, bind_Return_l, find_module_missing.
Qed.

Lemma import_module_checked_missing m p :
  sys_modules p = ∅ → importable m = true →
  import_module_checked installed m p = Some (Raise (ModuleNotFoundError "dotenv")).
Proof.
  intros Hp [-> | ->]%bool_decide_eq_true; unfold import_module_checked; simpl;
    unfold import_config_checked, import_db_config_checked;
    rewrite Hp, !decide_False by set_solver; simpl;
    by rewrite exec_db_config_checked_missing.
Qed.

Lemma istep_fun_missing p a p' o :
  sys_modules p = ∅ → istep_fun installed p a = Some (p', o) →
  sys_modules p' = ∅ ∧ is_call a = false ∧
  Forall (λ r, r = Raise (ModuleNotFoundError "dotenv")) (option_list o).
Proof.
  intros Hp. destruct a as [m|name|var v|var]; simpl.
  - destruct (import_module_checked installed m p) as [r|] eqn:Hm; simpl; [|done].
    assert (importable m = true) as Him.
    { unfold import_module_checked in Hm. unfold importable. apply bool_decide_eq_true.
      repeat case_decide; naive_solver. }
    rewrite (import_module_checked_missing _ _ Hp Him) in Hm. injection Hm as <-.
    intros [= <- <-]. split_and!; [done..|]. by repeat constructor.
  - rewrite Hp, decide_False by set_solver. done.
  - intros [= <- <-]. split_and!; [done..|]. constructor.
  - intros [= <- <-]. split_and!; [done..|]. constructor.
Qed.

End missing.

(** ** Runs *)

(** When [os] and [dotenv] are installed, the imports of the module
    succeed and the process is the one of [Package]: the same steps, the
    same runs, the same results. *)
Theorem isteps_installed p acts rs p' :
  "os" ∈ installed → "dotenv" ∈ installed →
  isteps installed p acts rs p' ↔ steps p acts rs p'.
Proof.
  intros Hos Hdotenv. split; (induction 1 as [|p a o p1 acts rs p2 Ha _ IH]; [constructor|]);
    econstructor; eauto; by rewrite ?istep_fun_installed in *.
Qed.

(** C28: without python-dotenv, in a process that has not loaded the package,
    the import of the package or of its module raises [ModuleNotFoundError]
    for [dotenv] and leaves the process as it was: nothing is added to
    [sys.modules] and [load_dotenv()] does not run. *)
Theorem import_missing_dotenv p m :
  "os" ∈ installed → "dotenv" ∉ installed →
  sys_modules p = ∅ → importable m = true →
  istep_fun installed p (Import m) = Some (p, Some (Raise (ModuleNotFoundError "dotenv"))).
Proof.
  intros Hos Hdotenv Hp Hm. simpl.
  by rewrite (import_module_checked_missing Hos Hdotenv _ _ Hp Hm).
Qed.

(** C29: without python-dotenv the package cannot be used: in every run of a
    process that starts without the package, the package is never loaded, no
    exported function is ever called, and the only results are the
    [ModuleNotFoundError] of the imports. *)
Theorem missing_dotenv_unusable env acts rs p' :
  "os" ∈ installed → "dotenv" ∉ installed →
  isteps installed (fresh_process env) acts rs p' →
  sys_modules p' = ∅ ∧ Forall (λ a, is_call a = false) acts ∧
  Forall (λ r, r = Raise (ModuleNotFoundError "dotenv")) rs.
Proof.
  intros Hos Hdotenv. assert (sys_modules (fresh_process env) = ∅) as Hinit by done.
  revert Hinit. generalize (fresh_process env). intros p Hp Hsteps.
  induction Hsteps as [|p a o p1 acts rs p2 Ha _ IH]; [done|].
  apply (istep_fun_missing Hos Hdotenv _ _ _ _ Hp) in Ha as (Hp1 & Hcall & Ho).
  destruct (IH Hp1) as (Hp2 & Hacts & Hrs). split_and!; [done|by constructor|].
  by apply Forall_app.
Qed.

End install_facts.

(** ** A process without python-dotenv *)

Lemma missing_irun :
  irun (H:=example_loader) {["os"]} example_process missing_actions =
    Some (missing_final, missing_results).
Proof. vm_compute. reflexivity. Qed.

Lemma missing_run :
  isteps (H:=example_loader) {["os"]} example_process missing_actions missing_results
    missing_final.
Proof. apply run_sound, missing_irun. Qed.

Lemma isteps_installed_witness :
  isteps (H:=example_loader) {["os"; "dotenv"]} example_process example_actions
    example_results example_final ↔
  steps (H:=example_loader) example_process example_actions example_results example_final.
Proof. apply (isteps_installed (H:=example_loader)); set_solver. Defined.

Lemma import_missing_dotenv_witness :
  istep_fun (H:=example_loader) {["os"]} example_process (Import "config") =
    Some (example_process, Some (Raise (ModuleNotFoundError "dotenv"))).
Proof. apply (import_missing_dotenv (H:=example_loader)); [set_solver..|done|done]. Defined.

Lemma missing_dotenv_unusable_witness :
  sys_modules missing_final = ∅ ∧ Forall (λ a, is_call a = false) missing_actions ∧
  Forall (λ r, r = Raise (ModuleNotFoundError "dotenv")) missing_results.
Proof.
  apply (missing_dotenv_unusable (H:=example_loader) {["os"]} (os_environ example_process)).
  - set_solver.
  - set_solver.
  - apply missing_run.
Defined.
