(* ===== verification/Names.v ===== *)
(** * The names that the two modules bind

    The bodies of [config/db_config.py] and [config/__init__.py] as lists of
    statements, as far as they bind names or change the environment, and an
    interpreter for them: [import], [from ... import ...], [def], the
    assignment of [__all__], and the call [load_dotenv()].  Running the two
    bodies gives the namespace of the module and of the package; this file
    shows that they hold the functions that [Package] takes them to hold,
    that the environment is changed as [exec_db_config] says, that the
    failure of the import is the one of [Install], and what a star import of
    the package or of the module binds in the importing program. *)

From Stdlib Require Import Ascii.
From stdpp Require Import base tactics option strings list gmap fin_maps.
From S2P Require Import Prelude PyString Environ DbConfig ConnString Validate Package Install.

#[local] Open Scope py_scope.

(** ** Definitions *)

(** The objects that names are bound to: by the statements of the two
    modules a function, a module, [load_dotenv] or a list of names; by an
    assignment of the importing program what a function has returned. *)
Inductive obj : Type :=
| OFunc (f : func)
| OModule (m : string)
| OLoadDotenv
| ONames (names : list string)
| OVal (v : value).

Abbreviation namespace := (gmap string obj).

(** The statements of the two module bodies. *)
Inductive stmt : Type :=
| SImport (m : string)
| SFromImport (m : string) (names : list string)
| SFromSubmodule (sub : string) (names : list string)
| SCall (name : string)
| SDef (name : string) (f : func)
| SAssign (name : string) (names : list string).

(** [config/db_config.py], lines 10-72. *)
Definition db_config_body : list stmt :=
  [ SImport "os";
    SFromImport "dotenv" ["load_dotenv"];
    SCall "load_dotenv";
    SDef "get_db_config" GetDbConfig;
    SDef "get_db_connection_string" GetDbConnectionString;
    SDef "validate_db_config" ValidateDbConfig ].

(** [config/__init__.py], lines 8-10. *)
Definition init_body : list stmt :=
  [ SFromSubmodule "db_config"
      ["get_db_config"; "get_db_connection_string"; "validate_db_config"];
    SAssign "__all__" ["get_db_config"; "get_db_connection_string"; "validate_db_config"] ].

(** [from m import n1, ..., nk]: each name is looked up in the module and
    bound in the importing namespace; a name that the module does not bind
    raises [ImportError]. *)
Definition from_import (src : namespace) (names : list string) (ns : namespace) :
    result namespace :=
  foldl (λ r name, let! ns := r in
                   match src !! name with
                   | Some o => Return (<[name := o]> ns)
                   | None => Raise (ImportError name)
                   end) (Return ns) names.

(** A name that a star import takes when the module has no [__all__]. *)
Definition public (name : string) : bool :=
  match name with
  | String "_"%char _ => false
  | _ => true
  end.

(** The names that [from m import *] binds: those of [__all__] if the module
    binds it to a list, else the public names of the module. *)
Definition star_names (src : namespace) : list string :=
  match src !! "__all__" with
  | Some (ONames names) => names
  | _ => filter (λ name, public name = true) (elements (dom src))
  end.

(** [from m import *]; a name of [__all__] that the module does not bind
    raises [AttributeError]. *)
Definition star_import (src : namespace) (ns : namespace) : result namespace :=
  foldl (λ r name, let! ns := r in
                   match src !! name with
                   | Some o => Return (<[name := o]> ns)
                   | None => Raise (AttributeError name)
                   end) (Return ns) (star_names src).

(** The functions among the objects of a namespace. *)
Definition functions (ns : namespace) : gmap string func :=
  omap (λ o, match o with OFunc f => Some f | _ => None end) ns.

Section names.
Context `{EnvLoader}.

(** One statement of the body of a module of the package [pkg], in a process
    where the modules [mods] can be found: the namespace of the module and
    the environment afterwards. *)
Definition exec_stmt (pkg : string) (mods : gmap string namespace)
    (st : namespace * environ) (s : stmt) : result (namespace * environ) :=
  let '(ns, env) := st in
  match s with
  | SImport m =>
      match mods !! m with
      | Some _ => Return (<[m := OModule m]> ns, env)
      | None => Raise (ModuleNotFoundError m)
      end
  | SFromImport m names =>
      match mods !! m with
      | Some src => let! ns := from_import src names ns in Return (ns, env)
      | None => Raise (ModuleNotFoundError m)
      end
  | SFromSubmodule sub names =>
      let m := pkg +:+ "." +:+ sub in
      match mods !! m with
      | Some src =>
          let! ns := from_import src names (<[sub := OModule m]> ns) in Return (ns, env)
      | None => Raise (ModuleNotFoundError m)
      end
  | SCall name =>
      match ns !! name with
      | Some OLoadDotenv => Return (ns, load_dotenv env)
      | Some (OFunc _) => Return (ns, env)
      | Some (OModule _) | Some (ONames _) | Some (OVal _) => Raise (TypeError name)
      | None => Raise (NameError name)
      end
  | SDef name f => Return (<[name := OFunc f]> ns, env)
  | SAssign name names => Return (<[name := ONames names]> ns, env)
  end.

(** A module body, from the empty namespace. *)
Definition exec_body (pkg : string) (mods : gmap string namespace) (body : list stmt)
    (env : environ) : result (namespace * environ) :=
  foldl (λ r s, let! st := r in exec_stmt pkg mods st s) (Return (∅, env)) body.

(** Loading the package: the body of the module, then the body of
    [__init__.py] with the module among those that can be found.  The
    result is the namespace of the package, that of the module, and the
    environment. *)
Definition load_package (mods : gmap string namespace) (env : environ) :
    result (namespace * namespace * environ) :=
  let! db := exec_body "config" mods db_config_body env in
  let! pkg := exec_body "config" (<["config.db_config" := db.1]> mods) init_body db.2 in
  Return (pkg.1, db.1, pkg.2).

End names.

(** The namespaces that loading gives. *)
Definition db_config_namespace : namespace :=
  <["validate_db_config" := OFunc ValidateDbConfig]>
    (<["get_db_connection_string" := OFunc GetDbConnectionString]>
      (<["get_db_config" := OFunc GetDbConfig]>
        (<["load_dotenv" := OLoadDotenv]> (<["os" := OModule "os"]> ∅)))).

Definition config_namespace : namespace :=
  <["__all__" := ONames config_all]>
    (<["validate_db_config" := OFunc ValidateDbConfig]>
      (<["get_db_connection_string" := OFunc GetDbConnectionString]>
        (<["get_db_config" := OFunc GetDbConfig]>
          (<["db_config" := OModule "config.db_config"]> ∅)))).

(** The modules outside the package, when python-dotenv is installed. *)
Definition site_modules : gmap string namespace :=
  <["dotenv" := {["load_dotenv" := OLoadDotenv]}]> (<["os" := ∅]> ∅).

#[export] Instance obj_eq_dec : EqDecision obj.
Proof. solve_decision. Defined.

#[export] Instance stmt_eq_dec : EqDecision stmt.
Proof. solve_decision. Defined.

(** ** The bodies *)

(** Runs the statements of a body one after the other, using the
    hypotheses on the modules that can be found. *)
Ltac run_body :=
  unfold exec_body, db_config_body, init_body;
  repeat (cbn [foldl exec_stmt bind from_import];
          try match goal with
              | H : ?m !! ?k = _ |- context [?m !! ?k] => rewrite H
              end).

Lemma functions_db_config_namespace : functions db_config_namespace = db_config_names.
Proof. compute_done. Qed.

Lemma functions_config_namespace : functions config_namespace = config_names.
Proof. compute_done. Qed.

Lemma star_import_config_namespace :
  star_import config_namespace ∅ = Return (OFunc <$> config_names).
Proof. compute_done. Qed.

(** The module has no [__all__]: a star import of it takes every public
    name, [os] and [load_dotenv] included. *)
Lemma star_import_db_config_namespace :
  star_import db_config_namespace ∅ = Return db_config_namespace.
Proof. compute_done. Qed.

Section names_facts.
Context `{EnvLoader}.
Implicit Types (mods : gmap string namespace) (env : environ) (ns : namespace).

Lemma exec_db_config_body mods dotenv os env :
  mods !! "os" = Some os → mods !! "dotenv" = Some dotenv →
  dotenv !! "load_dotenv" = Some OLoadDotenv →
  exec_body "config" mods db_config_body env = Return (db_config_namespace, load_dotenv env).
Proof. intros Hos Hdotenv Hload. run_body. by rewrite lookup_insert_eq. Qed.

Lemma exec_init_body mods env :
  mods !! "config.db_config" = Some db_config_namespace →
  exec_body "config" mods init_body env = Return (config_namespace, env).
Proof.
  intros Hdb. run_body. change ("config" +:+ "." +:+ "db_config") with "config.db_config".
  by rewrite Hdb.
Qed.

Lemma exec_db_config_body_missing mods os env :
  mods !! "os" = Some os → mods !! "dotenv" = None →
  exec_body "config" mods db_config_body env = Raise (ModuleNotFoundError "dotenv").
Proof. intros Hos Hdotenv. by run_body. Qed.

Lemma load_package_eq mods dotenv os env :
  mods !! "os" = Some os → mods !! "dotenv" = Some dotenv →
  dotenv !! "load_dotenv" = Some OLoadDotenv →
  load_package mods env = Return (config_namespace, db_config_namespace, load_dotenv env).
Proof.
  intros Hos Hdotenv Hload. unfold load_package.
  rewrite (exec_db_config_body _ _ _ _ Hos Hdotenv Hload), bind_Return_l.
  by rewrite exec_init_body by apply lookup_insert_eq.
Qed.

(** C30: loading the package, in a process where [os] and python-dotenv can
    be found, runs the two bodies without an exception, calls
    [load_dotenv()] once, and binds the names as [Package] takes them to be
    bound: the functions of the module are those of its three [def]
    statements, those of the package are the three that [__init__.py]
    imports, and a star import of the package binds exactly the names of
    [__all__], each to its function. *)
Theorem load_package_exports mods dotenv os env :
  mods !! "os" = Some os → mods !! "dotenv" = Some dotenv →
  dotenv !! "load_dotenv" = Some OLoadDotenv →
  ∃ pkg db, load_package mods env = Return (pkg, db, load_dotenv env) ∧
            functions db = db_config_names ∧ functions pkg = config_names ∧
            star_import pkg ∅ = Return (OFunc <$> config_names).
Proof.
  intros Hos Hdotenv Hload. exists config_namespace, db_config_namespace.
  rewrite (load_package_eq _ _ _ _ Hos Hdotenv Hload).
  auto using functions_db_config_namespace, functions_config_namespace,
    star_import_config_namespace.
Qed.

(** The interpreter of the bodies and the imports of [Install] agree:
    when [os] can be found, loading the package raises or changes the
    environment exactly as the checked import of the module does. *)
Theorem load_package_checked mods os env p :
  mods !! "os" = Some os →
  (∀ dotenv, mods !! "dotenv" = Some dotenv → dotenv !! "load_dotenv" = Some OLoadDotenv) →
  os_environ p = env →
  (let! r := load_package mods env in Return r.2) =
  (let! p' := exec_db_config_checked (dom mods) p in Return (os_environ p')).
Proof.
  intros Hos Hload <-. unfold exec_db_config_checked.
  rewrite (find_module_installed _ "os") by by apply elem_of_dom.
  destruct (mods !! "dotenv") as [dotenv|] eqn:Hdotenv.
  - rewrite (load_package_eq _ _ _ _ Hos Hdotenv (Hload _ eq_refl)).
    by rewrite (find_module_installed _ "dotenv") by by apply elem_of_dom.
  - unfold load_package. rewrite (exec_db_config_body_missing _ _ _ Hos Hdotenv).
    by rewrite (find_module_missing _ "dotenv") by by apply not_elem_of_dom.
Qed.

End names_facts.

(** ** A process with python-dotenv *)

Lemma load_package_exports_witness :
  ∃ pkg db,
    load_package (H:=example_loader) site_modules (os_environ example_process) =
      Return (pkg, db, load_dotenv (EnvLoader:=example_loader) (os_environ example_process)) ∧
    functions db = db_config_names ∧ functions pkg = config_names ∧
    star_import pkg ∅ = Return (OFunc <$> config_names).
Proof.
  by apply (load_package_exports (H:=example_loader) site_modules
    {["load_dotenv" := OLoadDotenv]} ∅).
Defined.

Lemma load_package_checked_witness :
  (let! r := load_package (H:=example_loader) site_modules (os_environ example_process) in
   Return r.2) =
  (let! p' := exec_db_config_checked (H:=example_loader) (dom site_modules) example_process in
   Return (os_environ p')).
Proof.
  apply (load_package_checked (H:=example_loader) site_modules ∅); [done| |done].
  intros dotenv. unfold site_modules. rewrite lookup_insert_eq. by intros [= <-].
Defined.
