(* ===== verification/Typing.v ===== *)
(** * Types and exceptions of the function bodies

    The docstrings of [db_config.py] say what the three functions return: a
    dict, a str, a tuple of a bool and a str.  This file checks the bodies
    against those declarations.  A checker goes through the syntax of
    [Bodies] and computes, for every expression and statement, the type of
    the value it gives and the exceptions it can raise; it accepts a
    subscript only of a dict that is known to hold the key, a part of an
    f-string only if it is a string, a call only of a function that calls
    less deep.  The file proves the checker sound for the evaluator of
    [Bodies], for every program of the fragment: a call of a function that
    the checker accepts is defined once the fuel covers the declared depth,
    returns a value of the declared type and raises nothing but the declared
    exceptions, whatever the environment holds and however it changes
    between the reads.  The three bodies pass the check. *)

From stdpp Require Import base tactics option strings list gmap fin_maps fin_map_dom.
From S2P Require Import Prelude PyString Environ DbConfig ConnString Validate Package Bodies.

#[local] Open Scope py_scope.

(** ** Definitions *)

(** The types of the values of the fragment.  A dict type gives the keys
    that the dict holds and the type of its values; the type of an
    exception is the exception. *)
Inductive ty : Type :=
| TNone
| TStr
| TBool
| TDict (keys : gset string) (elt : ty)
| TTuple (a b : ty)
| TExc (e : exn).

#[export] Instance ty_eq_dec : EqDecision ty.
Proof. solve_decision. Defined.

(** What a function is declared to do: the type it returns, the exceptions
    it raises, and how deep its calls nest. *)
Record sig : Type := mk_sig {
  sig_ret : ty;
  sig_raises : list exn;
  sig_depth : nat;
}.

(** "Returns: dict: Database configuration parameters" (lines 21-22): a
    dict of the five keys of lines 25-29, with strings for values. *)
Definition get_db_config_returns : ty := TDict (list_to_set config_keys) TStr.

(** "Returns: str: Database connection string" (lines 37-39). *)
Definition get_db_connection_string_returns : ty := TStr.

(** "Returns: tuple: (bool, str) - (is_valid, error_message)" (lines 58-59). *)
Definition validate_db_config_returns : ty := TTuple TBool TStr.

(** The return type that the docstring of each function declares. *)
Definition return_type (f : func) : ty :=
  match f with
  | GetDbConfig => get_db_config_returns
  | GetDbConnectionString => get_db_connection_string_returns
  | ValidateDbConfig => validate_db_config_returns
  end.

(** The exceptions that the bodies raise: the [ValueError] of lines 44-46
    and no other. *)
Definition raises_of (f : func) : list exn :=
  match f with
  | GetDbConnectionString => [ValueError password_not_set]
  | GetDbConfig | ValidateDbConfig => []
  end.

(** The three functions as declared. *)
Definition db_config_sigs : gmap string sig :=
  (λ f, mk_sig (return_type f) (raises_of f) (depth_of f)) <$> db_config_names.

(** The values of a type. *)
Inductive has_type : pval → ty → Prop :=
| none_has_type : has_type PNone TNone
| str_has_type s : has_type (PStr s) TStr
| bool_has_type b : has_type (PBool b) TBool
| dict_has_type d keys τ :
    dom d = keys → (∀ k v, d !! k = Some v → has_type v τ) →
    has_type (PDict d) (TDict keys τ)
| tuple_has_type a b τa τb :
    has_type a τa → has_type b τb → has_type (PTuple a b) (TTuple τa τb)
| exc_has_type e : has_type (PExc e) (TExc e).

(** Local variables that have the types of a context. *)
Definition ctx_ok (Γ : gmap string ty) (locals : gmap string pval) : Prop :=
  ∀ x τ, Γ !! x = Some τ → ∃ v, locals !! x = Some v ∧ has_type v τ.

(** The variables that have the same type in two contexts. *)
Definition meet (Γ Γ' : gmap string ty) : gmap string ty :=
  filter (λ xτ, Γ' !! xτ.1 = Some xτ.2) Γ.

(** A string literal. *)
Definition literal (e : expr) : option string :=
  match e with
  | EStr s => Some s
  | _ => None
  end.

(** The type of the values of a dict literal: that of its first value,
    which the others must have, too. *)
Definition unify (τo : option ty) (τ : ty) : option ty :=
  match τo with
  | None => Some τ
  | Some τ' => if decide (τ' = τ) then Some τ' else None
  end.

Section check.
Context (sigs : gmap string sig) (depth : nat).

(** The type of an expression and the exceptions that its evaluation can
    raise, in a function whose calls nest [depth] deep at most. *)
Fixpoint type_expr (Γ : gmap string ty) (e : expr) {struct e} : option (ty * list exn) :=
  match e with
  | EStr _ => Some (TStr, [])
  | EBool _ => Some (TBool, [])
  | EName x => τ ← Γ !! x; Some (τ, [])
  | EGetenv key default =>
      '(τk, rk) ← type_expr Γ key;
      '(τd, rd) ← type_expr Γ default;
      match τk, τd with
      | TStr, TStr => Some (TStr, rk ++ rd)
      | _, _ => None
      end
  | ECall f =>
      s ← sigs !! f;
      if decide (sig_depth s < depth) then Some (sig_ret s, sig_raises s) else None
  | EDict items =>
      '(keys, τo, rs) ←
        (fix build (keys : gset string) (τo : option ty) (items : list (expr * expr)) :=
           match items with
           | [] => Some (keys, τo, [])
           | item :: items =>
               k ← literal item.1;
               '(τ, rs) ← type_expr Γ item.2;
               τo' ← unify τo τ;
               '(keys', τo'', rs') ← build ({[k]} ∪ keys) (Some τo') items;
               Some (keys', τo'', rs ++ rs')
           end) ∅ None items;
      Some (TDict keys (default TNone τo), rs)
  | ESubscript e key =>
      '(τ, rs) ← type_expr Γ e;
      k ← literal key;
      match τ with
      | TDict keys τ' => if decide (k ∈ keys) then Some (τ', rs) else None
      | _ => None
      end
  | ENot e => '(_, rs) ← type_expr Γ e; Some (TBool, rs)
  | EJoinedStr parts =>
      rs ← (fix join (parts : list expr) :=
              match parts with
              | [] => Some []
              | part :: parts =>
                  '(τ, rs) ← type_expr Γ part;
                  rs' ← join parts;
                  if decide (τ = TStr) then Some (rs ++ rs') else None
              end) parts;
      Some (TStr, rs)
  | ETuple e1 e2 =>
      '(τ1, rs1) ← type_expr Γ e1;
      '(τ2, rs2) ← type_expr Γ e2;
      Some (TTuple τ1 τ2, rs1 ++ rs2)
  | EValueError msg => s ← literal msg; Some (TExc (ValueError s), [])
  end.

(** The items of a dict literal, from left to right. *)
Definition type_items (Γ : gmap string ty) :
    gset string → option ty → list (expr * expr) → option (gset string * option ty * list exn) :=
  fix build keys τo items :=
    match items with
    | [] => Some (keys, τo, [])
    | item :: items =>
        k ← literal item.1;
        '(τ, rs) ← type_expr Γ item.2;
        τo' ← unify τo τ;
        '(keys', τo'', rs') ← build ({[k]} ∪ keys) (Some τo') items;
        Some (keys', τo'', rs ++ rs')
    end.

(** The parts of an f-string. *)
Definition type_parts (Γ : gmap string ty) : list expr → option (list exn) :=
  fix join parts :=
    match parts with
    | [] => Some []
    | part :: parts =>
        '(τ, rs) ← type_expr Γ part;
        rs' ← join parts;
        if decide (τ = TStr) then Some (rs ++ rs') else None
    end.

Context (ret : ty).

(** A statement of a function that returns [ret]: the context after it,
    if it can end without leaving the function, and the exceptions that
    it can raise. *)
Fixpoint check_cmd (Γ : gmap string ty) (c : cmd) {struct c} :
    option (option (gmap string ty) * list exn) :=
  match c with
  | CAssign x e => '(τ, rs) ← type_expr Γ e; Some (Some (<[x := τ]> Γ), rs)
  | CIf test body =>
      '(_, rs) ← type_expr Γ test;
      '(after, rs') ←
        (fix block (Γ : gmap string ty) (cs : list cmd) :=
           match cs with
           | [] => Some (Some Γ, [])
           | c :: cs =>
               '(after, rs) ← check_cmd Γ c;
               match after with
               | Some Γ' => '(after', rs') ← block Γ' cs; Some (after', rs ++ rs')
               | None => Some (None, rs)
               end
           end) Γ body;
      Some (Some (from_option (meet Γ) Γ after), rs ++ rs')
  | CRaise e =>
      '(τ, rs) ← type_expr Γ e;
      match τ with
      | TExc x => Some (None, rs ++ [x])
      | _ => None
      end
  | CReturn e =>
      '(τ, rs) ← type_expr Γ e;
      if decide (τ = ret) then Some (None, rs) else None
  end.

Fixpoint check_block (Γ : gmap string ty) (cs : list cmd) :
    option (option (gmap string ty) * list exn) :=
  match cs with
  | [] => Some (Some Γ, [])
  | c :: cs =>
      '(after, rs) ← check_cmd Γ c;
      match after with
      | Some Γ' => '(after', rs') ← check_block Γ' cs; Some (after', rs ++ rs')
      | None => Some (None, rs)
      end
  end.

End check.

(** A body meets its declaration: it is well typed, returns on every path
    unless it is declared to return [None], and raises declared exceptions
    only; a function that is called has depth 1 at least. *)
Definition check_def (sigs : gmap string sig) (s : sig) (body : list cmd) : bool :=
  match check_block sigs (sig_depth s) (sig_ret s) ∅ body with
  | Some (after, rs) =>
      bool_decide (0 < sig_depth s) &&
      bool_decide (after = None ∨ sig_ret s = TNone) &&
      bool_decide (Forall (λ e, e ∈ sig_raises s) rs)
  | None => false
  end.

(** Every declared function is defined and meets its declaration. *)
Definition check_defs (sigs : gmap string sig) (defs : gmap string (list cmd)) : bool :=
  bool_decide (map_Forall (λ f s, from_option (check_def sigs s) false (defs !! f) = true) sigs).

(** An evaluation that is defined, gives values that [P] holds of and
    raises exceptions of [rs] only. *)
Definition sound_at {A : Type} (P : A → Prop) (rs : list exn) (c : evalM A) : Prop :=
  ∀ n, ∃ r t, c n = Some (r, t) ∧
    match r with
    | Return a => P a
    | Raise e => e ∈ rs
    end.

(** What a statement leaves: local variables of the context after it, or
    a returned value of the declared type. *)
Definition flow_ok (ret : ty) (after : option (gmap string ty))
    (r : gmap string pval + pval) : Prop :=
  match r with
  | inl locals => ∃ Γ, after = Some Γ ∧ ctx_ok Γ locals
  | inr v => has_type v ret
  end.

(** A dict under construction: its keys, and values of the type of the
    values so far. *)
Definition dict_ok (keys : gset string) (τo : option ty) (d : gmap string pval) : Prop :=
  dom d = keys ∧ ∀ k v, d !! k = Some v → ∃ τ, τo = Some τ ∧ has_type v τ.

(** An expression whose evaluation is sound for its type: in local
    variables of the context it is defined, gives a value of the type and
    raises what the checker lists, or less. *)
Definition expr_sound (sigs : gmap string sig) (depth : nat) (call : string → evalM pval)
    (envs : nat → environ) (e : expr) : Prop :=
  ∀ Γ locals τ rs rs', ctx_ok Γ locals → type_expr sigs depth Γ e = Some (τ, rs) → rs ⊆ rs' →
    sound_at (λ v, has_type v τ) rs' (eval_expr call envs locals e).

Definition cmd_sound (sigs : gmap string sig) (depth : nat) (ret : ty)
    (call : string → evalM pval) (envs : nat → environ) (c : cmd) : Prop :=
  ∀ Γ locals after rs rs', ctx_ok Γ locals →
    check_cmd sigs depth ret Γ c = Some (after, rs) → rs ⊆ rs' →
    sound_at (flow_ok ret after) rs' (exec_cmd call envs locals c).

(** ** Values and contexts *)

Lemma has_type_str v : has_type v TStr → ∃ s, v = PStr s.
Proof. inversion 1. eauto. Qed.

Lemma has_type_dict v keys τ :
  has_type v (TDict keys τ) →
  ∃ d, v = PDict d ∧ dom d = keys ∧ ∀ k w, d !! k = Some w → has_type w τ.
Proof. inversion 1. eauto. Qed.

Lemma has_type_exc v e : has_type v (TExc e) → v = PExc e.
Proof. by inversion 1. Qed.

Lemma has_type_tuple v τa τb :
  has_type v (TTuple τa τb) → ∃ a b, v = PTuple a b ∧ has_type a τa ∧ has_type b τb.
Proof. inversion 1. eauto. Qed.

Lemma ctx_ok_empty locals : ctx_ok ∅ locals.
Proof. by intros x τ. Qed.

Lemma ctx_ok_insert Γ locals x τ v :
  ctx_ok Γ locals → has_type v τ → ctx_ok (<[x := τ]> Γ) (<[x := v]> locals).
Proof.
  intros HΓ Hv y τ'. destruct (decide (x = y)) as [->|].
  - rewrite !lookup_insert_eq. intros [= <-]. eauto.
  - rewrite !lookup_insert_ne by done. apply HΓ.
Qed.

Lemma ctx_ok_subseteq Γ Γ' locals : Γ ⊆ Γ' → ctx_ok Γ' locals → ctx_ok Γ locals.
Proof. intros Hsub HΓ x τ Hx. apply HΓ. by eapply lookup_weaken. Qed.

Lemma meet_subseteq_l Γ Γ' : meet Γ Γ' ⊆ Γ.
Proof. apply map_filter_subseteq. Qed.

Lemma meet_subseteq_r Γ Γ' : meet Γ Γ' ⊆ Γ'.
Proof.
  apply map_subseteq_spec. intros x τ. unfold meet.
  rewrite map_lookup_filter_Some. naive_solver.
Qed.

(** The context after an [if] without [else] holds whether the body ran
    or not. *)
Lemma ctx_ok_after_l Γ after locals :
  ctx_ok Γ locals → ctx_ok (from_option (meet Γ) Γ after) locals.
Proof. destruct after as [Γ'|]; [|done]. apply ctx_ok_subseteq, meet_subseteq_l. Qed.

Lemma ctx_ok_after_r Γ Γ' locals :
  ctx_ok Γ' locals → ctx_ok (from_option (meet Γ) Γ (Some Γ')) locals.
Proof. apply ctx_ok_subseteq, meet_subseteq_r. Qed.

(** ** Sound evaluations *)

Section sound.
Context {A B : Type}.
Implicit Types (P : A → Prop) (Q : B → Prop) (c : evalM A) (k : A → evalM B) (rs : list exn).

Lemma sound_ret P rs a : P a → sound_at P rs (eret a).
Proof. intros Ha n. by exists (Return a), []. Qed.

Lemma sound_raise P rs e : e ∈ rs → sound_at P rs (eraise e).
Proof. intros He n. by exists (Raise e), []. Qed.

Lemma sound_weaken P P' rs rs' c :
  (∀ a, P a → P' a) → rs ⊆ rs' → sound_at P rs c → sound_at P' rs' c.
Proof.
  intros HP Hrs Hc n. destruct (Hc n) as ([a|e] & t & -> & Hr); eexists _, _; split; try done.
  - by apply HP.
  - by apply Hrs.
Qed.

Lemma sound_bind P Q rs c k :
  sound_at P rs c → (∀ a, P a → sound_at Q rs (k a)) → sound_at Q rs (ebind c k).
Proof.
  intros Hc Hk n. unfold ebind. destruct (Hc n) as ([a|e] & t & -> & Hr); [|eauto].
  destruct (Hk a Hr (length t + n)) as (r & t' & -> & Hr'). eauto.
Qed.

Lemma sound_bind_ret Q rs a k : sound_at Q rs (k a) → sound_at Q rs (ebind (eret a) k).
Proof. intros Hk n. rewrite ebind_eret. apply Hk. Qed.

End sound.

Lemma sound_read envs k d rs : sound_at (λ v, has_type v TStr) rs (eread envs k d).
Proof. intros n. eexists _, _. split; [done|]. constructor. Qed.

(** ** The checker, equation by equation *)

Section equations.
Context (sigs : gmap string sig) (depth : nat) (ret : ty).
Implicit Types (Γ : gmap string ty).

Lemma type_expr_dict Γ items :
  type_expr sigs depth Γ (EDict items) =
    '(keys, τo, rs) ← type_items sigs depth Γ ∅ None items;
    Some (TDict keys (default TNone τo), rs).
Proof. done. Qed.

Lemma type_expr_joined Γ parts :
  type_expr sigs depth Γ (EJoinedStr parts) =
    rs ← type_parts sigs depth Γ parts; Some (TStr, rs).
Proof. done. Qed.

Lemma check_cmd_if Γ test body :
  check_cmd sigs depth ret Γ (CIf test body) =
    '(_, rs) ← type_expr sigs depth Γ test;
    '(after, rs') ← check_block sigs depth ret Γ body;
    Some (Some (from_option (meet Γ) Γ after), rs ++ rs').
Proof. done. Qed.

Lemma literal_Some e s : literal e = Some s → e = EStr s.
Proof. destruct e; by intros [= <-]. Qed.

Lemma unify_Some τo τ τ' : unify τo τ = Some τ' → τ' = τ ∧ (τo = None ∨ τo = Some τ).
Proof.
  destruct τo as [τ0|]; simpl; [|intros [= <-]; auto].
  case_decide; intros [= <-]; subst; auto.
Qed.

End equations.

(** Inversion of a successful check. *)
Ltac inv_check :=
  repeat match goal with
         | H : (_ ≫= _) = Some _ |- _ =>
             apply bind_Some in H as (? & ? & H)
         | H : (let '(_, _) := ?p in _) = Some _ |- _ => destruct p
         | H : (if decide _ then _ else _) = Some _ |- _ => case_decide; [|done]
         | H : literal _ = Some _ |- _ => apply literal_Some in H as ->
         | H : Some _ = Some _ |- _ => injection H as H; subst
         | H : (_, _) = (_, _) |- _ => injection H as H; subst
         end.

(** ** Soundness of the checker *)

Section soundness.
Context (sigs : gmap string sig) (depth : nat).
Context (call : string → evalM pval) (envs : nat → environ).
Context (Hcall : ∀ f s, sigs !! f = Some s → sig_depth s < depth →
  sound_at (λ v, has_type v (sig_ret s)) (sig_raises s) (call f)).
Implicit Types (Γ : gmap string ty) (locals : gmap string pval) (rs : list exn).

Lemma dict_ok_insert keys τo τ τ' d k v :
  dict_ok keys τo d → unify τo τ = Some τ' → has_type v τ →
  dict_ok ({[k]} ∪ keys) (Some τ') (<[k := v]> d).
Proof.
  intros [Hdom Hd] [-> Hτo]%unify_Some Hv. split; [by rewrite dom_insert_L, Hdom|].
  intros k' v' [[_ <-]|[_ Hk']]%lookup_insert_Some; [eauto|].
  destruct (Hd _ _ Hk') as (τ0 & Hτ0 & Hv'). destruct Hτo; simplify_eq. eauto.
Qed.

Lemma dict_ok_has_type keys τo d : dict_ok keys τo d → has_type (PDict d) (TDict keys (default TNone τo)).
Proof.
  intros [Hdom Hd]. constructor; [done|]. intros k v Hk.
  by destruct (Hd _ _ Hk) as (τ & -> & Hv).
Qed.

Lemma type_items_sound items Γ locals keys τo keys' τo' rs rs' d :
  Forall (λ item, expr_sound sigs depth call envs item.1 ∧
                  expr_sound sigs depth call envs item.2) items →
  ctx_ok Γ locals →
  type_items sigs depth Γ keys τo items = Some (keys', τo', rs) → rs ⊆ rs' →
  dict_ok keys τo d →
  sound_at (dict_ok keys' τo') rs' (eval_items call envs locals d items).
Proof.
  intros Hitems HΓ. revert keys τo rs d.
  induction Hitems as [|[key value] items [_ Hvalue] _ IH]; intros keys τo rs d; simpl.
  { intros [= <- <- <-] _ Hd. by apply sound_ret. }
  intros Hcheck Hrs Hd. inv_check.
  cbn [fst snd eval_expr]. apply sound_bind_ret.
  eapply sound_bind; [eapply Hvalue; [done..|set_solver]|]. intros v Hv.
  eapply IH; [done|set_solver|]. by eapply dict_ok_insert.
Qed.

Lemma type_parts_sound parts Γ locals rs rs' s :
  Forall (expr_sound sigs depth call envs) parts →
  ctx_ok Γ locals →
  type_parts sigs depth Γ parts = Some rs → rs ⊆ rs' →
  sound_at (λ _, True) rs' (eval_parts call envs locals s parts).
Proof.
  intros Hparts HΓ. revert rs s.
  induction Hparts as [|part parts Hpart _ IH]; intros rs s; simpl.
  { intros _ _. by apply sound_ret. }
  intros Hcheck Hrs. inv_check.
  eapply sound_bind; [eapply Hpart; [done..|set_solver]|].
  intros v [s' ->]%has_type_str. eapply IH; [done|set_solver].
Qed.

(** Every expression that the checker accepts is sound. *)
Lemma type_expr_sound e : expr_sound sigs depth call envs e.
Proof.
  induction e as [s|b|x|key default IHkey IHdefault|f|items IH|e key IHe _|e IHe|parts IH|
                  e1 e2 IH1 IH2|msg _] using expr_nested_ind;
    intros Γ locals τ rs rs' HΓ Hcheck Hrs.
  - simpl in Hcheck. inv_check. apply sound_ret. constructor.
  - simpl in Hcheck. inv_check. apply sound_ret. constructor.
  - simpl in Hcheck. inv_check. destruct (HΓ _ _ H) as (v & Hx & Hv).
    simpl. rewrite Hx. by apply sound_ret.
  - simpl in Hcheck. inv_check. repeat case_match; simplify_eq. simpl.
    eapply sound_bind; [eapply IHkey; [done..|set_solver]|]. intros ? [k ->]%has_type_str.
    eapply sound_bind; [eapply IHdefault; [done..|set_solver]|]. intros ? [d ->]%has_type_str.
    apply sound_read.
  - simpl in Hcheck. inv_check. eapply sound_weaken; [| |by eapply Hcall]; done.
  - rewrite type_expr_dict in Hcheck. inv_check. rewrite eval_expr_dict.
    eapply sound_bind; [by eapply type_items_sound|].
    intros d Hd. by apply sound_ret, dict_ok_has_type.
  - simpl in Hcheck. inv_check. repeat case_match; simplify_eq. inv_check. simpl.
    eapply sound_bind; [by eapply IHe|]. intros ? (d & -> & Hdom & Hd)%has_type_dict.
    apply sound_bind_ret.
    destruct (d !! _) as [v|] eqn:Hk; [by apply sound_ret, (Hd _ _ Hk)|].
    apply not_elem_of_dom in Hk. by rewrite Hdom in Hk.
  - simpl in Hcheck. inv_check. simpl.
    eapply sound_bind; [by eapply IHe|]. intros v _. apply sound_ret. constructor.
  - rewrite type_expr_joined in Hcheck. inv_check. rewrite eval_expr_joined.
    eapply sound_bind; [by eapply type_parts_sound|].
    intros s _. apply sound_ret. constructor.
  - simpl in Hcheck. inv_check. simpl.
    eapply sound_bind; [eapply IH1; [done..|set_solver]|]. intros v1 Hv1.
    eapply sound_bind; [eapply IH2; [done..|set_solver]|]. intros v2 Hv2.
    apply sound_ret. by constructor.
  - simpl in Hcheck. inv_check. simpl. apply sound_bind_ret, sound_ret. constructor.
Qed.

Context (ret : ty).

Lemma flow_ok_after Γ after r :
  flow_ok ret after r → flow_ok ret (Some (from_option (meet Γ) Γ after)) r.
Proof.
  destruct r as [locals|v]; [|done]. intros (Γ' & -> & HΓ'). eexists. split; [done|].
  by apply ctx_ok_after_r.
Qed.

Lemma check_block_sound_with cs Γ locals after rs rs' :
  Forall (cmd_sound sigs depth ret call envs) cs →
  ctx_ok Γ locals →
  check_block sigs depth ret Γ cs = Some (after, rs) → rs ⊆ rs' →
  sound_at (flow_ok ret after) rs' (exec_block call envs locals cs).
Proof.
  intros Hcs. revert Γ locals after rs.
  induction Hcs as [|c cs Hc _ IH]; intros Γ locals after rs HΓ; simpl.
  { intros [= <- <-] _. apply sound_ret. simpl. eauto. }
  intros Hcheck Hrs. inv_check. case_match; inv_check.
  - eapply sound_bind; [eapply Hc; [done..|set_solver]|].
    intros [locals'|v] Hr; [|by apply sound_ret].
    destruct Hr as (Γ' & [= <-] & HΓ'). eapply IH; [done..|set_solver].
  - eapply sound_bind; [by eapply Hc|].
    intros [locals'|v] Hr; [by destruct Hr as (? & [=] & _)|by apply sound_ret].
Qed.

(** Every statement that the checker accepts is sound. *)
Lemma check_cmd_sound c : cmd_sound sigs depth ret call envs c.
Proof.
  induction c as [x e|test body IH|e|e] using cmd_nested_ind;
    intros Γ locals after rs rs' HΓ Hcheck Hrs.
  - simpl in Hcheck. inv_check. simpl.
    eapply sound_bind; [by eapply type_expr_sound|]. intros v Hv.
    apply sound_ret. eexists. split; [done|]. by apply ctx_ok_insert.
  - rewrite check_cmd_if in Hcheck. inv_check. rewrite exec_cmd_if.
    eapply sound_bind; [eapply type_expr_sound; [done..|set_solver]|]. intros v _.
    destruct (truth v).
    + eapply sound_weaken; [apply flow_ok_after|reflexivity|].
      eapply check_block_sound_with; [done..|set_solver].
    + apply sound_ret. eexists. split; [done|]. by apply ctx_ok_after_l.
  - simpl in Hcheck. inv_check. case_match; simplify_eq. simpl.
    eapply sound_bind; [eapply type_expr_sound; [done..|set_solver]|].
    intros ? ->%has_type_exc. apply sound_raise. set_solver.
  - simpl in Hcheck. inv_check. simpl.
    eapply sound_bind; [by eapply type_expr_sound|]. intros v Hv. by apply sound_ret.
Qed.

Lemma check_block_sound cs Γ locals after rs rs' :
  ctx_ok Γ locals →
  check_block sigs depth ret Γ cs = Some (after, rs) → rs ⊆ rs' →
  sound_at (flow_ok ret after) rs' (exec_block call envs locals cs).
Proof. apply check_block_sound_with, Forall_forall. intros c _. apply check_cmd_sound. Qed.

End soundness.

Lemma check_defs_lookup sigs defs f s :
  check_defs sigs defs = true → sigs !! f = Some s →
  ∃ body after rs, defs !! f = Some body ∧
    check_block sigs (sig_depth s) (sig_ret s) ∅ body = Some (after, rs) ∧
    0 < sig_depth s ∧ (after = None ∨ sig_ret s = TNone) ∧ rs ⊆ sig_raises s.
Proof.
  intros Hdefs%bool_decide_eq_true Hf. specialize (Hdefs _ _ Hf). simpl in Hdefs.
  destruct (defs !! f) as [body|]; [|done]. simpl in Hdefs. unfold check_def in Hdefs.
  destruct (check_block _ _ _ _ _) as [[after rs]|] eqn:Hcheck; [|done].
  apply andb_true_iff in Hdefs as [[Hdepth Hafter]%andb_true_iff Hrs].
  apply bool_decide_eq_true in Hdepth, Hafter, Hrs. rewrite Forall_forall in Hrs.
  by eexists _, _, _.
Qed.

(** A call of a function of a program that the checker accepts, with fuel
    for the declared depth: it is defined, returns a value of the declared
    type and raises declared exceptions only. *)
Theorem call_def_sound sigs defs envs fuel f s :
  check_defs sigs defs = true → sigs !! f = Some s → sig_depth s ≤ fuel →
  sound_at (λ v, has_type v (sig_ret s)) (sig_raises s) (call_def fuel defs envs f).
Proof.
  intros Hdefs. revert f s. induction fuel as [|fuel IH]; intros f s Hf Hfuel;
    destruct (check_defs_lookup _ _ _ _ Hdefs Hf) as (body & after & rs & Hbody & Hcheck &
      Hdepth & Hafter & Hrs); [lia|].
  rewrite call_def_S, Hbody.
  eapply sound_bind.
  { eapply (check_block_sound sigs (sig_depth s)); [|apply ctx_ok_empty|done..].
    intros g sg Hg Hlt. apply IH; [done|lia]. }
  intros [locals|v] Hr; apply sound_ret; [|done].
  destruct Hr as (Γ & -> & _). destruct Hafter as [[=]| ->]. constructor.
Qed.

(** ** The three functions *)

Lemma db_config_sigs_lookup name f :
  db_config_names !! name = Some f →
  db_config_sigs !! name = Some (mk_sig (return_type f) (raises_of f) (depth_of f)).
Proof. intros Hname. unfold db_config_sigs. by rewrite lookup_fmap, Hname. Qed.

Lemma db_config_checked : check_defs db_config_sigs db_config_defs = true.
Proof. by vm_compute. Qed.

(** The check is no formality: a body that subscripts the dict with a
    key that it does not hold is refused, and so is one that lets the
    [ValueError] escape from a function declared to raise nothing. *)
Example check_refuses_misspelt_key :
  check_def db_config_sigs (mk_sig TStr [] 2)
    [ CAssign "config" (ECall "get_db_config");
      CReturn (ESubscript (EName "config") (EStr "pasword")) ] = false.
Proof. vm_compute; reflexivity. Qed.

Example check_refuses_undeclared_raise :
  check_def db_config_sigs (mk_sig TStr [] 3)
    [ CReturn (ECall "get_db_connection_string") ] = false.
Proof. vm_compute; reflexivity. Qed.

Lemma db_config_names_func f : ∃ name, db_config_names !! name = Some f.
Proof.
  destruct f; [by exists "get_db_config"|by exists "get_db_connection_string"|
               by exists "validate_db_config"].
Qed.

(** The functions of [Package] return values of the declared types; they
    are what the bodies evaluate to. *)
Lemma call_typed f env :
  match call f env with
  | Return v => has_type (pval_of v) (return_type f)
  | Raise e => e ∈ raises_of f
  end.
Proof.
  destruct (db_config_names_func f) as [name Hname].
  destruct (call_def_sound _ _ (λ _, env) (depth_of f + 0) _ _ db_config_checked
              (db_config_sigs_lookup _ _ Hname) ltac:(simpl; lia) 0) as (r & t & Hcall & Hr).
  rewrite (call_def_alone _ _ _ _ _ Hname) in Hcall. injection Hcall as <- _.
  by destruct (call f env).
Qed.

(** C14: the bodies of the three functions meet what the docstrings
    declare.  A call of a name that the module binds, with fuel for the
    depth of its calls, is defined; [get_db_config] returns a dict that
    holds exactly the five keys, each with a str; [get_db_connection_string]
    returns a str or raises the [ValueError] of line 44;
    [validate_db_config] returns a tuple of a bool and a str and raises
    nothing.  No subscript raises [KeyError], no part of the f-string is
    anything but a str, and this whatever the environment holds and however
    it changes between the reads of a call. *)
Theorem db_config_typed envs name f fuel n :
  db_config_names !! name = Some f → depth_of f ≤ fuel →
  ∃ r t, call_def fuel db_config_defs envs name n = Some (r, t) ∧
    match r with
    | Return v => has_type v (return_type f)
    | Raise e => e ∈ raises_of f
    end.
Proof.
  intros Hname%db_config_sigs_lookup Hfuel.
  by apply (call_def_sound _ _ envs fuel _ _ db_config_checked Hname).
Qed.

Lemma db_config_typed_witness :
  ∃ r t, call_def 2 db_config_defs (λ _, env_example) "validate_db_config" 0 = Some (r, t) ∧
    match r with
    | Return v => has_type v (return_type ValidateDbConfig)
    | Raise e => e ∈ raises_of ValidateDbConfig
    end.
Proof.
  apply (db_config_typed (λ _, env_example) "validate_db_config" ValidateDbConfig 2 0);
    [done|simpl; lia].
Defined.
