(* ===== verification/Heap.v ===== *)
(** * Dicts as objects: the functions of [db_config.py] on a heap

    A Python dict is an object: [get_db_config()] evaluates a dict literal,
    which allocates a new dict, and returns a reference to it; the other two
    functions bind that reference to [config] and subscript it.  This file
    gives the three functions at that level: a heap of dicts, computations
    that read and extend it, and the statements on dicts ([d[k]],
    [d[k] = v], [del d[k]]).  It then shows that each function on the heap
    returns what the function on values of [DbConfig], [ConnString] and
    [Validate] returns, that it allocates one dict and that it leaves every
    dict of the heap as it was.

    A dict that becomes unreachable stays in the heap: the model has no
    deallocation, which no program can observe. *)

From stdpp Require Import base tactics option strings list gmap fin_maps.
From S2P Require Import Prelude PyString Environ DbConfig ConnString Validate.

#[local] Open Scope py_scope.

(** ** Definitions *)

(** The heap: the dicts allocated so far; a reference is a position. *)
Abbreviation heap := (list (gmap string string)).
Abbreviation ref := nat.

(** A computation on the heap returns or raises and leaves a heap; it is
    undefined ([None]) only where a reference points outside the heap, which
    no Python program can bring about. *)
Definition heapM (A : Type) : Type := heap → option (result A * heap).

Definition hret {A : Type} (a : A) : heapM A := λ σ, Some (Return a, σ).

Definition hraise {A : Type} (e : exn) : heapM A := λ σ, Some (Raise e, σ).

Definition hbind {A B : Type} (c : heapM A) (k : A → heapM B) : heapM B :=
  λ σ, '(r, σ') ← c σ;
       match r with
       | Return a => k a σ'
       | Raise e => Some (Raise e, σ')
       end.

Notation "'let*' x ':=' c 'in' k" := (hbind c (fun x => k))
  (at level 10, x name, c at level 100, k at level 200) : py_scope.

(** A dict literal allocates a dict and evaluates to the reference to it. *)
Definition new_dict (items : list (string * string)) : heapM ref :=
  λ σ, Some (Return (length σ), σ ++ [dict_literal items]).

(** [d[k]] *)
Definition get_item (r : ref) (k : string) : heapM string :=
  λ σ, d ← σ !! r; Some (subscript d k, σ).

(** [d[k] = v] *)
Definition set_item (r : ref) (k v : string) : heapM () :=
  λ σ, d ← σ !! r; Some (Return (), <[r := <[k := v]> d]> σ).

(** [del d[k]], which raises [KeyError] when the key is missing. *)
Definition del_item (r : ref) (k : string) : heapM () :=
  λ σ, d ← σ !! r;
       match d !! k with
       | Some _ => Some (Return (), <[r := delete k d]> σ)
       | None => Some (Raise (KeyError k), σ)
       end.

(** [get_db_config()]: the dict literal of lines 24-30. *)
Definition get_db_config_heap (env : environ) : heapM ref :=
  new_dict [
    ("username", getenv env "DB_USERNAME" "postgres");
    ("password", getenv env "DB_PASSWORD" "");
    ("host", getenv env "DB_HOST" "localhost");
    ("port", getenv env "DB_PORT" "5432");
    ("database", getenv env "DB_NAME" "customer_behavior")
  ].

(** [get_db_connection_string()]: [config] is a reference to the dict that
    [get_db_config()] allocated. *)
Definition get_db_connection_string_heap (env : environ) : heapM string :=
  let* config := get_db_config_heap env in
  let* password := get_item config "password" in
  if negb (truthy password) then hraise (ValueError password_not_set)
  else
    let* username := get_item config "username" in
    let* password := get_item config "password" in
    let* host := get_item config "host" in
    let* port := get_item config "port" in
    let* database := get_item config "database" in
    hret (connection_url username password host port database).

(** [validate_db_config()] *)
Definition validate_db_config_heap (env : environ) : heapM (bool * string) :=
  let* config := get_db_config_heap env in
  let* password := get_item config "password" in
  if negb (truthy password)
  then hret (false, "DB_PASSWORD is not set in environment variables")
  else
    let* username := get_item config "username" in
    if negb (truthy username)
    then hret (false, "DB_USERNAME is not set in environment variables")
    else
      let* database := get_item config "database" in
      if negb (truthy database)
      then hret (false, "DB_NAME is not set in environment variables")
      else hret (true, "Configuration is valid").

(** A computation on values, run on a heap that it does not touch. *)
Definition pure {A : Type} (c : result A) : heapM A := λ σ, Some (c, σ).

(** A heap in which the objects of [σ] are where and as they were. *)
Definition extends (σ σ' : heap) : Prop := σ `prefix_of` σ'.

(** A heap that differs from [σ] at the reference [r] at most. *)
Definition only_changes (r : ref) (σ σ' : heap) : Prop :=
  length σ' = length σ ∧ ∀ r', r' ≠ r → σ' !! r' = σ !! r'.

(** ** Laws of the computations *)

Section heap_laws.
Context {A B C : Type}.
Implicit Types (c : heapM A) (k : A → heapM B) (σ : heap).

Lemma hbind_hret (a : A) k σ : hbind (hret a) k σ = k a σ.
Proof. done. Qed.

Lemma hbind_hraise (e : exn) k σ : hbind (hraise e) k σ = Some (Raise e, σ).
Proof. done. Qed.

Lemma hbind_pure (r : result A) k σ :
  hbind (pure r) k σ = match r with Return a => k a σ | Raise e => Some (Raise e, σ) end.
Proof. done. Qed.

Lemma hbind_assoc c k (h : B → heapM C) σ :
  hbind (hbind c k) h σ = hbind c (λ a, hbind (k a) h) σ.
Proof. unfold hbind. destruct (c σ) as [[[a|e] σ']|]; simpl; done. Qed.

End heap_laws.

(** ** Allocation and subscripts *)

Section items.
Implicit Types (σ : heap) (d : gmap string string) (r : ref) (k v : string).

Lemma new_dict_lookup items σ :
  (σ ++ [dict_literal items]) !! length σ = Some (dict_literal items).
Proof. by rewrite lookup_app_r, Nat.sub_diag. Qed.

Lemma get_item_pure σ d r k : σ !! r = Some d → get_item r k σ = pure (subscript d k) σ.
Proof. unfold get_item. by intros ->. Qed.

Lemma hbind_get_item {B} σ d r k (h : string → heapM B) :
  σ !! r = Some d → hbind (get_item r k) h σ = hbind (pure (subscript d k)) h σ.
Proof. intros Hr. unfold hbind. by rewrite (get_item_pure _ _ _ _ Hr). Qed.

Lemma get_item_heap σ r k s σ' : get_item r k σ = Some (s, σ') → σ' = σ.
Proof. unfold get_item. destruct (σ !! r); simpl; [|done]. by intros [= _ <-]. Qed.

Lemma insert_only_changes σ r d : only_changes r σ (<[r := d]> σ).
Proof.
  split; [apply length_insert|]. intros r' Hne. by apply list_lookup_insert_ne.
Qed.

Lemma only_changes_refl r σ : only_changes r σ σ.
Proof. by split. Qed.

Lemma set_item_changes σ r k v u σ' : set_item r k v σ = Some (u, σ') → only_changes r σ σ'.
Proof.
  unfold set_item. destruct (σ !! r); simpl; [|done]. intros [= _ <-].
  apply insert_only_changes.
Qed.

Lemma del_item_changes σ r k u σ' : del_item r k σ = Some (u, σ') → only_changes r σ σ'.
Proof.
  unfold del_item. destruct (σ !! r) as [d|]; simpl; [|done].
  destruct (d !! k); intros [= _ <-]; auto using insert_only_changes, only_changes_refl.
Qed.

End items.

#[export] Instance extends_preorder : PreOrder extends.
Proof. unfold extends. apply _. Qed.

Lemma extends_app σ σ1 : extends σ (σ ++ σ1).
Proof. by apply prefix_app_r. Qed.

Lemma extends_lookup σ σ' r d : extends σ σ' → σ !! r = Some d → σ' !! r = Some d.
Proof. intros [σ1 ->] Hr. by apply lookup_app_l_Some. Qed.

Lemma extends_length σ σ' : extends σ σ' → length σ ≤ length σ'.
Proof. apply prefix_length. Qed.

#[export] Hint Resolve extends_app extends_lookup extends_length : py.

(** ** The three functions on the heap *)

Section functions.
Implicit Types (env : environ) (σ : heap).

Lemma get_db_config_heap_eq env σ :
  get_db_config_heap env σ = Some (Return (length σ), σ ++ [get_db_config env]).
Proof. done. Qed.

Lemma hbind_get_db_config_heap {B} env (h : ref → heapM B) σ :
  hbind (get_db_config_heap env) h σ = h (length σ) (σ ++ [get_db_config env]).
Proof. done. Qed.

Lemma config_lookup env σ : (σ ++ [get_db_config env]) !! length σ = Some (get_db_config env).
Proof. apply new_dict_lookup. Qed.

(** On every heap, [get_db_config()] returns a reference that no object
    of the heap has, to a new dict that holds the five entries; the heap
    afterwards is the heap before with that dict added: no existing dict is
    changed or shared. *)
Theorem get_db_config_heap_fresh env σ :
  ∃ r σ', get_db_config_heap env σ = Some (Return r, σ') ∧
          σ !! r = None ∧ σ' !! r = Some (get_db_config env) ∧
          σ' = σ ++ [get_db_config env].
Proof.
  exists (length σ), (σ ++ [get_db_config env]). split_and!; [done| |apply config_lookup|done].
  by apply lookup_ge_None.
Qed.

Lemma get_db_connection_string_heap_eq env σ :
  get_db_connection_string_heap env σ =
    Some (get_db_connection_string env, σ ++ [get_db_config env]).
Proof.
  unfold get_db_connection_string_heap. rewrite hbind_get_db_config_heap.
  rewrite (hbind_get_item _ _ _ _ _ (config_lookup env σ)), subscript_password, hbind_pure.
  rewrite get_db_connection_string_unfold. destruct (truthy _); simpl; [|done].
  repeat (rewrite (hbind_get_item _ _ _ _ _ (config_lookup env σ)); autorewrite with py;
          rewrite hbind_pure).
  done.
Qed.

Lemma validate_db_config_heap_eq env σ :
  validate_db_config_heap env σ =
    Some (validate_db_config env, σ ++ [get_db_config env]).
Proof.
  unfold validate_db_config_heap, validate_db_config, validation_of_config.
  rewrite hbind_get_db_config_heap.
  repeat (rewrite (hbind_get_item _ _ _ _ _ (config_lookup env σ)); autorewrite with py;
          rewrite hbind_pure; destruct (truthy _); simpl; [|done]).
  done.
Qed.

(** C17: on every heap, [get_db_connection_string()] returns or raises what
    the function on values does for the same environment, whatever dicts the
    heap holds and whatever was done to them; it allocates one dict and
    leaves the others where and as they are. *)
Theorem get_db_connection_string_heap_refines env σ :
  ∃ σ', get_db_connection_string_heap env σ = Some (get_db_connection_string env, σ') ∧
        extends σ σ' ∧ length σ' = S (length σ).
Proof.
  eexists. split; [apply get_db_connection_string_heap_eq|].
  split; [apply extends_app|]. rewrite List.length_app. simpl. lia.
Qed.

End functions.
